(** * The BGA footprint wizard (pcbnew/python/plugins/bga_wizard.py)

    A shallow embedding of the plugin and the properties of its pad grid,
    its footprint name, its parameter check and the graphics it draws.

    Numbers.  The wizard receives its dimensions in internal units (IU,
    nanometres) as Python integers; these are [Z].  The file starts with
    [from __future__ import division], so every [/] is true division; the
    values it produces (halves and quarters of integers) and the values
    [ToMM] produces are modelled as exact rationals [Q].  Every quotient
    the wizard compares or draws is a multiple of 1/4 IU, which a Python
    float holds exactly for any dimension a board can have.

    The plugin runs under Python 2 (line 106 is indented with a tab, the
    lines around it with spaces), so [round] is rounding half away from
    zero. *)

From Stdlib Require Import ZArith QArith Qround Qabs List String Ascii Bool.
From Stdlib Require Import Lia Lqa DecimalString DecimalZ DecimalPos Finite.
From Equations Require Import Equations.
Import ListNotations.

Local Open Scope Z_scope.

(** ** Python helpers *)

(** [int(x)] on a float: truncation towards zero. *)
Definition py_int (x : Q) : Z := Z.quot (Qnum x) (Zpos (Qden x)).

(** [round(x)] of Python 2: the nearest integer, halves away from zero. *)
Definition py_round (x : Q) : Z :=
  if Qle_bool 0 x then Qfloor (x + (1 # 2)) else Qceiling (x - (1 # 2)).

(** [range(n)]. *)
Definition py_range (n : Z) : list Z := map Z.of_nat (seq 0 (Z.to_nat n)).

(** ["%d" % n] and ["{}".format(n)] on an integer. *)
Definition str_int (n : Z) : string := NilZero.string_of_int (Z.to_int n).

(** [x < y] on numbers, as a boolean. *)
Definition Qltb (x y : Q) : bool := negb (Qle_bool y x).

(** ** The host API

    The plugin is glue over pcbnew, FootprintWizardBase and PadArray, which
    belong to the host application.  A call into them is recorded as a
    [HostCall] with the arguments the plugin passes; what the host does with
    a call is modelled separately, below. *)

Module pcbnew.

(** Modelled from the spec: the host's layer identifiers; the plugin names
    three of them. *)
Inductive LAYER : Type := F_Fab | F_SilkS | F_CrtYd | F_Cu.

(** Modelled from the spec: the host's footprint attribute constants. *)
Inductive ATTR : Type := MOD_DEFAULT | MOD_CMS.

(** Modelled from the spec: pcbnew's [IU_PER_MM]; lengths are in nanometres. *)
Definition IU_PER_MM : Z := 1000000.

(** Modelled from the spec: [pcbnew.ToMM(iu)], the length in millimetres,
    [float(iu) / float(IU_PER_MM)]. *)
Definition ToMM (iu : Z) : Q := (inject_Z iu / inject_Z IU_PER_MM)%Q.

(** Modelled from the spec: [pcbnew.FromMM(mm)], the length in internal
    units, [int(float(mm) * float(IU_PER_MM))]. *)
Definition FromMM (mm : Q) : Z := py_int (mm * inject_Z IU_PER_MM)%Q.

(** Modelled from the spec: [pcbnew.PutOnGridMM(value, gridSizeMM)], the
    multiple of the grid nearest to [value],
    [round(value / thresh) * thresh] with [thresh = FromMM(gridSizeMM)]. *)
Definition PutOnGridMM (value gridSizeMM : Q) : Q :=
  let thresh := FromMM gridSizeMM in
  (inject_Z (py_round (value / inject_Z thresh)) * inject_Z thresh)%Q.

End pcbnew.
Import pcbnew.

(** Units of a wizard parameter ([self.uMM], [self.uInteger], [self.uBool]). *)
Inductive Units : Type := uMM | uInteger | uBool.

(** A default handed to [AddParam]: a number or a boolean. *)
Inductive Default : Type :=
| DNum (q : Q)
| DBool (b : bool).

(** The pad prototype made by [PA.PadMaker(module).SMTRoundPad(size)]. *)
Record Pad : Type := SMTRoundPad { pad_diameter : Z }.

(** The fields [PadGridArray.__init__] stores. *)
Record PadGridArray : Type := mkPadGridArray {
  pga_pad : Pad;
  pga_nx : Z;
  pga_ny : Z;
  pga_px : Z;
  pga_py : Z;
  pga_centre : Z * Z
}.

Definition Point : Type := (Q * Q)%type.

(** The calls the plugin makes into the host, with their arguments.
    Keyword arguments left out at a call site are [None]. *)
Inductive HostCall : Type :=
(* module level *)
| Import_ (module_name : string)
| FootprintWizard_init (class_name : string)
| register
(* self.AddParam / self.CheckParam *)
| AddParam (page name : string) (units : Units) (default : Default)
           (min_value : option Q) (designator hint : option string)
| CheckParam (page name : string) (min_value : Q) (info : string)
(* array.AddPadsToModule(self.draw) *)
| AddPadsToModule (array : PadGridArray)
(* self.draw *)
| SetLayer (layer : LAYER)
| SetLineThickness (lineThickness : Q)
| BoxWithDiagonalAtCorner (x y w h setback : Q)
| Polyline (pts : list Point) (mirrorX mirrorY : option Q)
| Circle (x y r : Q) (filled : bool)
| Box (x y w h : Q)
| Value (x y size : Q)
| Reference (x y size : Q)
| Text (x y size : Q) (text : string)
(* self.module *)
| SetAttributes (attributes : ATTR).

(** ** The wizard's parameters, as [GenerateParameterList] declares them

    [self.parameters[page][name]] is the current value of a parameter: an
    integer number of internal units for [uMM], an integer for [uInteger],
    a boolean for [uBool]. *)

Module Pads.
Record t : Type := mk {
  pitch : Z;
  pad_size : Z;
  columns : Z;
  rows : Z;
  override : bool;
  pads_count : Z
}.
End Pads.

Module Package.
Record t : Type := mk {
  width : Z;
  length : Z;
  ball_size : Z;
  margin : Z
}.
End Package.

Module SilkS.
Record t : Type := mk {
  bevel : Z
}.
End SilkS.

Record Parameters : Type := mkParameters {
  pPads : Pads.t;
  pPackage : Package.t;
  pSilkS : SilkS.t
}.

(** ** The state of a wizard object *)

(** A graphic item of the footprint: the drawing call that made it, with the
    layer and line thickness of the drawing context at that moment. *)
Record Graphic : Type := mkGraphic {
  g_layer : LAYER;
  g_thickness : Q;
  g_shape : HostCall
}.

(** A pad of the footprint. *)
Record PlacedPad : Type := mkPlacedPad {
  pp_name : string;
  pp_pos : Point;
  pp_pad : Pad
}.

Record Wizard : Type := mkWizard {
  parameters : Parameters;            (* self.parameters *)
  params : list HostCall;             (* self.params, as declared by AddParam *)
  dc_layer : LAYER;                   (* self.draw: current layer *)
  dc_lineThickness : Q;               (* self.draw: current line thickness *)
  module_pads : list PlacedPad;       (* self.module: pads *)
  module_graphics : list Graphic;     (* self.module: graphic items *)
  module_texts : list HostCall;       (* self.module: reference, value, texts *)
  module_attributes : ATTR;           (* self.module: attributes *)
  errors : list string;               (* parameter errors reported so far *)
  registered : list string            (* classes registered with the host *)
}.

(** ** Pad names *)

(** [alphabet[i]] as a one-letter string (empty when [i] is out of range,
    where Python raises). *)
Definition letter (alphabet : string) (i : Z) : string :=
  match String.get (Z.to_nat i) alphabet with
  | Some c => String c EmptyString
  | None => EmptyString
  end.

Definition len (s : string) : Z := Z.of_nat (String.length s).

(** Modelled from the spec: [PadArray.AlphaNameFromNumber(n, alphabet)], the
    alphabetic label of the number [n >= 1] over [alphabet]: 1 is the first
    letter, [len(alphabet)] the last one, and the labels go on with two
    letters after that.  The host computes
    [div, mod = divmod(n - 1, len(alphabet))] and returns
    [AlphaNameFromNumber(div, alphabet) + alphabet[mod]] when [div > 0] and
    [alphabet[mod]] otherwise. *)
Equations? AlphaNameFromNumber (n : Z) (alphabet : string) : string
  by wf (Z.to_nat n) lt :=
AlphaNameFromNumber n alphabet with Z_lt_dec 0 ((n - 1) / len alphabet) := {
  | left _ =>
      (AlphaNameFromNumber ((n - 1) / len alphabet) alphabet
       ++ letter alphabet ((n - 1) mod len alphabet))%string
  | right _ => letter alphabet ((n - 1) mod len alphabet) }.
Proof.
  assert (Hlen : 0 <= len alphabet) by (apply Nat2Z.is_nonneg).
  assert (Hpos : 0 < len alphabet /\ 0 <= n - 1).
  { destruct (Z.eq_dec (len alphabet) 0) as [E | E].
    - rewrite E, Z.div_0_r in l. lia.
    - split; [lia |].
      destruct (Z_lt_dec (n - 1) 0) as [Hn | Hn]; [| lia].
      assert ((n - 1) / len alphabet < 0) by (apply Z.div_lt_upper_bound; lia).
      lia. }
  destruct Hpos as [Hl Hn].
  assert ((n - 1) / len alphabet <= n - 1).
  { apply Z.div_le_upper_bound; nia. }
  lia.
Qed.

(** [BGAPadGridArray.NamingFunction] (lines 26-29). *)
Definition BGA_alphabet : string := "ABCDEFGHJKLMNPRTUVWY".

Definition NamingFunction (n_x n_y : Z) : string :=
  (AlphaNameFromNumber (n_y + 1) BGA_alphabet ++ str_int (n_x + 1))%string.

(** ** What the host does with a call *)

(** Modelled from the spec: [PadGridArray.AddPadsToModule], the pads of a
    grid array.  The grid is centred on [centre]; column [x] and row [y]
    hold the pad at [(pin1posX + x * px, pin1posY + py * y)] with
    [pin1posX = centre.x - px * (nx - 1) / 2] and
    [pin1posY = centre.y - py * (ny - 1) / 2], named by [NamingFunction].
    Columns are the outer loop. *)
Definition pad_position (a : PadGridArray) (x y : Z) : Point :=
  let pin1posX :=
    (inject_Z (fst (pga_centre a)) - inject_Z (pga_px a * (pga_nx a - 1)) / 2)%Q in
  let pin1posY :=
    (inject_Z (snd (pga_centre a)) - inject_Z (pga_py a * (pga_ny a - 1)) / 2)%Q in
  ((pin1posX + inject_Z (x * pga_px a))%Q, (pin1posY + inject_Z (pga_py a * y))%Q).

Definition array_pads (a : PadGridArray) : list PlacedPad :=
  flat_map
    (fun x =>
       map (fun y => mkPlacedPad (NamingFunction x y) (pad_position a x y) (pga_pad a))
           (py_range (pga_ny a)))
    (py_range (pga_nx a)).

(** Modelled from the spec: the value a numeric parameter is checked
    against, in the unit it is entered in (millimetres for [uMM]). *)
Definition checked_value (p : Parameters) (page name : string) : option Q :=
  if (page =? "Pads")%string then
    if (name =? "pitch")%string then Some (ToMM (Pads.pitch (pPads p)))
    else if (name =? "pad_size")%string then Some (ToMM (Pads.pad_size (pPads p)))
    else if (name =? "columns")%string then Some (inject_Z (Pads.columns (pPads p)))
    else if (name =? "rows")%string then Some (inject_Z (Pads.rows (pPads p)))
    else if (name =? "pads_count")%string then Some (inject_Z (Pads.pads_count (pPads p)))
    else None
  else if (page =? "Package")%string then
    if (name =? "width")%string then Some (ToMM (Package.width (pPackage p)))
    else if (name =? "length")%string then Some (ToMM (Package.length (pPackage p)))
    else if (name =? "ball_size")%string then Some (ToMM (Package.ball_size (pPackage p)))
    else if (name =? "margin")%string then Some (ToMM (Package.margin (pPackage p)))
    else None
  else if (page =? "SilkS")%string then
    if (name =? "bevel")%string then Some (ToMM (SilkS.bevel (pSilkS p)))
    else None
  else None.

(** Modelled from the spec: the effect of a host call on the wizard object.
    [SetLayer] and [SetLineThickness] set the drawing context; a line
    drawing call adds a graphic item on the current layer with the current
    line thickness; [Value], [Reference] and [Text] place a text;
    [AddPadsToModule] adds the pads of the array; [SetAttributes] sets the
    footprint's attributes; [CheckParam] reports [info] as a parameter error
    when the parameter is below [min_value]; [AddParam] declares a parameter;
    the constructor starts from no parameters and no errors; [register]
    hands the wizard to the host. *)
Definition host_step (c : HostCall) (w : Wizard) : Wizard :=
  match c with
  | Import_ _ => w
  | FootprintWizard_init cls =>
      mkWizard (parameters w) [] (dc_layer w) (dc_lineThickness w)
               (module_pads w) (module_graphics w) (module_texts w)
               (module_attributes w) [] (registered w)
  | register =>
      mkWizard (parameters w) (params w) (dc_layer w) (dc_lineThickness w)
               (module_pads w) (module_graphics w) (module_texts w)
               (module_attributes w) (errors w)
               (registered w ++ ["BGAWizard"%string])
  | AddParam _ _ _ _ _ _ _ =>
      mkWizard (parameters w) (params w ++ [c]) (dc_layer w) (dc_lineThickness w)
               (module_pads w) (module_graphics w) (module_texts w)
               (module_attributes w) (errors w) (registered w)
  | CheckParam page name min_value info =>
      match checked_value (parameters w) page name with
      | Some v =>
          if Qltb v min_value then
            mkWizard (parameters w) (params w) (dc_layer w) (dc_lineThickness w)
                     (module_pads w) (module_graphics w) (module_texts w)
                     (module_attributes w) (errors w ++ [info]) (registered w)
          else w
      | None => w
      end
  | AddPadsToModule a =>
      mkWizard (parameters w) (params w) (dc_layer w) (dc_lineThickness w)
               (module_pads w ++ array_pads a) (module_graphics w)
               (module_texts w) (module_attributes w) (errors w) (registered w)
  | SetLayer l =>
      mkWizard (parameters w) (params w) l (dc_lineThickness w)
               (module_pads w) (module_graphics w) (module_texts w)
               (module_attributes w) (errors w) (registered w)
  | SetLineThickness t =>
      mkWizard (parameters w) (params w) (dc_layer w) t
               (module_pads w) (module_graphics w) (module_texts w)
               (module_attributes w) (errors w) (registered w)
  | SetAttributes a =>
      mkWizard (parameters w) (params w) (dc_layer w) (dc_lineThickness w)
               (module_pads w) (module_graphics w) (module_texts w) a
               (errors w) (registered w)
  | BoxWithDiagonalAtCorner _ _ _ _ _ | Polyline _ _ _ | Circle _ _ _ _
  | Box _ _ _ _ =>
      mkWizard (parameters w) (params w) (dc_layer w) (dc_lineThickness w)
               (module_pads w)
               (module_graphics w ++ [mkGraphic (dc_layer w) (dc_lineThickness w) c])
               (module_texts w) (module_attributes w) (errors w) (registered w)
  | Value _ _ _ | Reference _ _ _ | Text _ _ _ _ =>
      mkWizard (parameters w) (params w) (dc_layer w) (dc_lineThickness w)
               (module_pads w) (module_graphics w) (module_texts w ++ [c])
               (module_attributes w) (errors w) (registered w)
  end.

(** ** Methods as state transformers that log their host calls *)

Definition M (A : Type) : Type := Wizard -> A * list HostCall * Wizard.

Definition ret {A : Type} (a : A) : M A := fun w => (a, [], w).

Definition bind {A B : Type} (m : M A) (f : A -> M B) : M B :=
  fun w =>
    let r1 := m w in
    let r2 := f (fst (fst r1)) (snd r1) in
    (fst (fst r2), snd (fst r1) ++ snd (fst r2), snd r2).

Definition call (c : HostCall) : M unit := fun w => (tt, [c], host_step c w).

Definition self_parameters : M Parameters := fun w => (parameters w, [], w).

Declare Scope wizard_scope.
Delimit Scope wizard_scope with wizard.
Notation "x <- m ;; k" := (bind m (fun x => k))
  (at level 61, m at next level, right associativity) : wizard_scope.
Notation "m ;; k" := (bind m (fun _ => k))
  (at level 61, right associativity) : wizard_scope.

(** The value returned, the calls issued and the final state of a run. *)
Definition result {A : Type} (m : M A) (w : Wizard) : A := fst (fst (m w)).
Definition issued {A : Type} (m : M A) (w : Wizard) : list HostCall := snd (fst (m w)).
Definition final {A : Type} (m : M A) (w : Wizard) : Wizard := snd (m w).

(** ** The plugin (bga_wizard.py, lines 32-181) *)

Local Open Scope wizard_scope.
Local Open Scope string_scope.

Section BGAWizard.

(** Python's [str] of a float, as [str.format] applies it to [{x}]. *)
Variable str_float : Q -> string.

(** Lines 34-38. *)
Definition GetName : M string := ret "BGA".

Definition GetDescription : M string := ret "Ball Grid Array Footprint Wizard".

(** Lines 40-53. *)
Definition GenerateParameterList : M unit :=
  call (AddParam "Pads" "pitch" uMM (DNum 1) None (Some "P") None) ;;
  call (AddParam "Pads" "pad_size" uMM (DNum (5 # 10)) None (Some "Pad") None) ;;
  call (AddParam "Pads" "columns" uInteger (DNum 5) None (Some "nx") None) ;;
  call (AddParam "Pads" "rows" uInteger (DNum 5) None (Some "ny") None) ;;
  call (AddParam "Pads" "override" uBool (DBool false) None None
          (Some "Override default pins count for name, use if going to delete some pads after footprint creation")) ;;
  call (AddParam "Pads" "pads_count" uInteger (DNum 25) None None
          (Some "Pads count used if override is enabled")) ;;
  call (AddParam "Package" "width" uMM (DNum 6) None (Some "X") None) ;;
  call (AddParam "Package" "length" uMM (DNum 6) None (Some "Y") None) ;;
  call (AddParam "Package" "ball_size" uMM (DNum (6 # 10)) None (Some "Ball") None) ;;
  call (AddParam "Package" "margin" uMM (DNum (25 # 100)) (Some (2 # 10)) None
          (Some "Courtyard margin")) ;;
  call (AddParam "SilkS" "bevel" uMM (DNum 1) (Some (2 # 10)) None None).

(** Lines 55-63. *)
Definition CheckParameters : M unit :=
  p <- self_parameters ;;
  (* check that the package is large enough *)
  let width := ToMM (Pads.pitch (pPads p) * Pads.columns (pPads p)) in
  let length := ToMM (Pads.pitch (pPads p) * Pads.rows (pPads p)) in
  call (CheckParam "Package" "width" width
          ("Package width is too small (< " ++ str_float width ++ "mm)")) ;;
  call (CheckParam "Package" "length" length
          ("Package length is too small (< " ++ str_float length ++ "mm")).

(** Lines 65-80. *)
Definition GetValue : M string :=
  p <- self_parameters ;;
  let pins :=
    if Pads.override (pPads p) then Pads.pads_count (pPads p)
    else Pads.rows (pPads p) * Pads.columns (pPads p) in
  ret ("BGA-" ++ str_int pins
       ++ "_" ++ str_float (ToMM (Package.width (pPackage p)))
       ++ "x" ++ str_float (ToMM (Package.length (pPackage p)))
       ++ "mm_Layout" ++ str_int (Pads.columns (pPads p))
       ++ "x" ++ str_int (Pads.rows (pPads p))
       ++ "_P" ++ str_float (ToMM (Pads.pitch (pPads p)))
       ++ "mm_Ball" ++ str_float (ToMM (Package.ball_size (pPackage p)))
       ++ "mm_Pad" ++ str_float (ToMM (Pads.pad_size (pPads p)))
       ++ "mm_NSMD").

(** Modelled from the spec: [FootprintWizard.GetTextSize()], the host's
    default text size, the IPC nominal 1 mm. *)
Definition GetTextSize : Z := FromMM 1.

(** The bevel of the fab outline (lines 106-112). *)
Definition fab_bevel (bevel : Z) : Z :=
  if Qltb (ToMM bevel) 1 then bevel else FromMM 1.

(** The pin-1 marker (lines 135-148): four vertices, the first and the last
    of which are dropped when the package is too small. *)
Definition pin1_vertices (ssx ssy len_x len_y : Q) (offset bevel : Z) : list Point :=
  [ (- ssx - inject_Z offset + len_x, - ssy - inject_Z offset) ;
    (- ssx - inject_Z offset + inject_Z bevel, - ssy - inject_Z offset) ;
    (- ssx - inject_Z offset, - ssy - inject_Z offset + inject_Z bevel) ;
    (- ssx - inject_Z offset, - ssy - inject_Z offset + len_y) ]%Q.

Definition pin1_marker (ssx ssy len_x len_y : Q) (offset bevel : Z) : list Point :=
  let pin1 := pin1_vertices ssx ssy len_x len_y offset bevel in
  (* Remove lines if the package is too small *)
  let pin1 := if Qltb len_x (inject_Z bevel) then tl pin1 else pin1 in
  let pin1 := if Qltb len_y (inject_Z bevel) then removelast pin1 else pin1 in
  pin1.

(** Lines 82-179. *)
Definition BuildThisFootprint : M unit :=
  p <- self_parameters ;;
  let pads := pPads p in
  let rows := Pads.rows pads in
  let cols := Pads.columns pads in
  let pad_size := Pads.pad_size pads in
  let pad_size := (pad_size, pad_size) in
  let pad_pitch := Pads.pitch pads in
  (* add in the pads *)
  let pad := SMTRoundPad (Pads.pad_size pads) in
  let pin1_pos := ((- inject_Z ((cols - 1) * pad_pitch) / 2)%Q,
                   (- inject_Z ((rows - 1) * pad_pitch) / 2)%Q) in
  let array := mkPadGridArray pad cols rows pad_pitch pad_pitch (0, 0) in
  call (AddPadsToModule array) ;;
  (* Draw box outline on F.Fab layer *)
  call (SetLayer F_Fab) ;;
  let ssx := (inject_Z (Package.width (pPackage p)) / 2)%Q in
  let ssy := (inject_Z (Package.length (pPackage p)) / 2)%Q in
  let bevel := SilkS.bevel (pSilkS p) in
  (* Bevel should be 1mm nominal but we'll allow smaller values *)
  let bevel := fab_bevel bevel in
  (* Box with 1mm bevel as per IPC7351C *)
  call (BoxWithDiagonalAtCorner 0 0 (ssx * 2) (ssy * 2) (inject_Z bevel)) ;;
  (* Add IPC markings to F_Silk layer *)
  call (SetLayer F_SilkS) ;;
  let offset := FromMM (15 # 100) in
  let len_x := ((1 # 2) * ssx)%Q in
  let len_y := ((1 # 2) * ssy)%Q in
  let edge := [ (ssx + inject_Z offset - len_x, - ssy - inject_Z offset) ;
                (ssx + inject_Z offset, - ssy - inject_Z offset) ;
                (ssx + inject_Z offset, - ssy - inject_Z offset + len_y) ]%Q in
  (* Draw three square edges *)
  call (Polyline edge None None) ;;
  call (Polyline edge None (Some 0%Q)) ;;
  call (Polyline edge (Some 0%Q) (Some 0%Q)) ;;
  (* Draw pin-1 marker *)
  let bevel := bevel + offset in
  let pin1 := pin1_marker ssx ssy len_x len_y offset bevel in
  call (Polyline pin1 None None) ;;
  (* Draw a circle in the bevel void *)
  call (Circle (- ssx) (- ssy) (inject_Z (FromMM (2 # 10))) true) ;;
  (* Courtyard *)
  let cmargin := Package.margin (pPackage p) in
  call (SetLayer F_CrtYd) ;;
  let sizex := ((ssx + inject_Z cmargin) * 2)%Q in
  let sizey := ((ssy + inject_Z cmargin) * 2)%Q in
  (* round size to nearest 0.1mm, rectangle will thus land on a 0.05mm grid *)
  let sizex := PutOnGridMM sizex (1 # 10) in
  let sizey := PutOnGridMM sizey (1 # 10) in
  (* set courtyard line thickness to the one defined in KLC *)
  call (SetLineThickness (inject_Z (FromMM (5 # 100)))) ;;
  call (Box 0 0 sizex sizey) ;;
  (* restore line thickness to previous value *)
  call (SetLineThickness (inject_Z (FromMM (inject_Z cmargin)))) ;;
  (* reference and value *)
  let text_size := GetTextSize in
  let ypos := (ssy + inject_Z text_size)%Q in
  call (Value 0 ypos (inject_Z text_size)) ;;
  call (Reference 0 (- ypos) (inject_Z text_size)) ;;
  call (Text 0 0 (inject_Z text_size) "%R") ;;
  (* set SMD attribute *)
  call (SetAttributes MOD_CMS).

(** Modelled from the spec: the constructor [BGAWizard()] inherits from
    [FootprintWizardBase.FootprintWizard]; it initialises the plugin object
    and declares the parameters through [GenerateParameterList]. *)
Definition BGAWizard_new : M unit :=
  call (FootprintWizard_init "BGAWizard") ;;
  GenerateParameterList.

(** What executing the file does: the imports of lines 18-21, the two class
    definitions, which have no effect on the host, and line 181,
    [BGAWizard().register()]. *)
Definition module_body : M unit :=
  call (Import_ "pcbnew") ;;
  call (Import_ "FootprintWizardBase") ;;
  call (Import_ "PadArray") ;;
  BGAWizard_new ;;
  call register.

End BGAWizard.

Local Close Scope string_scope.

(** ** Reading the log of a run *)

Definition LAYER_eqb (a b : LAYER) : bool :=
  match a, b with
  | F_Fab, F_Fab | F_SilkS, F_SilkS | F_CrtYd, F_CrtYd | F_Cu, F_Cu => true
  | _, _ => false
  end.

(** The shapes among [gs] that lie on [layer]. *)
Definition on_layer (layer : LAYER) (gs : list Graphic) : list HostCall :=
  map g_shape (filter (fun g => LAYER_eqb layer (g_layer g)) gs).

(** The state after the host has served the calls [cs] in order. *)
Definition serve (cs : list HostCall) (w : Wizard) : Wizard :=
  fold_left (fun s c => host_step c s) cs w.

Definition is_line_drawing (c : HostCall) : bool :=
  match c with
  | BoxWithDiagonalAtCorner _ _ _ _ _ | Polyline _ _ _ | Circle _ _ _ _
  | Box _ _ _ _ => true
  | _ => false
  end.

Definition is_text (c : HostCall) : bool :=
  match c with
  | Value _ _ _ | Reference _ _ _ | Text _ _ _ _ => true
  | _ => false
  end.

Definition is_pad_array (c : HostCall) : bool :=
  match c with
  | AddPadsToModule _ => true
  | _ => false
  end.

Definition is_register (c : HostCall) : bool :=
  match c with
  | register => true
  | _ => false
  end.

Definition is_constructor (c : HostCall) : bool :=
  match c with
  | FootprintWizard_init _ => true
  | _ => false
  end.

(** The calls of the pad, drawing and footprint API, the ones a footprint is
    built from. *)
Definition is_footprint_api (c : HostCall) : bool :=
  match c with
  | AddPadsToModule _ | SetLayer _ | SetLineThickness _ | SetAttributes _ => true
  | _ => is_line_drawing c || is_text c
  end.

(** The graphic items the calls [cs] draw, starting from a drawing context
    with the given layer and line thickness. *)
Fixpoint drawn (layer : LAYER) (thickness : Q) (cs : list HostCall) : list Graphic :=
  match cs with
  | [] => []
  | SetLayer l :: cs' => drawn l thickness cs'
  | SetLineThickness t :: cs' => drawn layer t cs'
  | c :: cs' =>
      if is_line_drawing c
      then mkGraphic layer thickness c :: drawn layer thickness cs'
      else drawn layer thickness cs'
  end.

(** The graphic items and the pads a run of [BuildThisFootprint] adds. *)
Definition footprint_graphics (w : Wizard) : list Graphic :=
  drawn (dc_layer w) (dc_lineThickness w) (issued BuildThisFootprint w).

Definition footprint_pads (w : Wizard) : list PlacedPad :=
  flat_map (fun c => match c with AddPadsToModule a => array_pads a | _ => [] end)
           (issued BuildThisFootprint w).

(** ** Rectangles and the courtyard *)

(** Modelled from the spec: the rectangle of a box drawn by [Box(x, y, w, h)]
    or [BoxWithDiagonalAtCorner(x, y, w, h, setback)], centred on [(x, y)]
    with its corners at [x -+ w/2] and [y -+ h/2]; for the second call this
    is the w-by-h box whose corner the diagonal cuts.  A negative [w] or [h]
    gives the same corners as its absolute value. *)
Record Rect : Type := mkRect { r_x : Q; r_y : Q; r_w : Q; r_h : Q }.

Definition r_left (r : Rect) : Q := (r_x r - Qabs (r_w r) / 2)%Q.
Definition r_right (r : Rect) : Q := (r_x r + Qabs (r_w r) / 2)%Q.
Definition r_top (r : Rect) : Q := (r_y r - Qabs (r_h r) / 2)%Q.
Definition r_bottom (r : Rect) : Q := (r_y r + Qabs (r_h r) / 2)%Q.

(** Every point of [inner] lies in [outer]. *)
Definition rect_contains (outer inner : Rect) : Prop :=
  (r_left outer <= r_left inner)%Q /\ (r_right inner <= r_right outer)%Q
  /\ (r_top outer <= r_top inner)%Q /\ (r_bottom inner <= r_bottom outer)%Q.

(** [q] is [v] rounded to the nearest multiple of 100000 IU (0.1 mm). *)
Definition rounded_to_tenth_mm (q v : Q) : Prop :=
  (exists k : Z, q == inject_Z (k * 100000))%Q
  /\ (v - inject_Z 50000 <= q <= v + inject_Z 50000)%Q.

(** What C3 says of the graphics of one run. *)
Definition courtyard_encloses_package (w : Wizard) : Prop :=
  let width := Package.width (pPackage (parameters w)) in
  let length := Package.length (pPackage (parameters w)) in
  let cmargin := Package.margin (pPackage (parameters w)) in
  exists sizex sizey fab_w fab_l setback : Q,
    on_layer F_CrtYd (footprint_graphics w) = [Box 0 0 sizex sizey]
    /\ rounded_to_tenth_mm sizex (inject_Z (width + 2 * cmargin))
    /\ rounded_to_tenth_mm sizey (inject_Z (length + 2 * cmargin))
    /\ on_layer F_Fab (footprint_graphics w)
       = [BoxWithDiagonalAtCorner 0 0 fab_w fab_l setback]
    /\ (fab_w == inject_Z width)%Q /\ (fab_l == inject_Z length)%Q
    /\ rect_contains (mkRect 0 0 sizex sizey) (mkRect 0 0 fab_w fab_l).

(** ** Frames and grids *)

Definition is_check (c : HostCall) : bool :=
  match c with
  | CheckParam _ _ _ _ => true
  | _ => false
  end.


(** What a parameter check leaves alone: everything but the error list. *)
Definition same_but_errors (w v : Wizard) : Prop :=
  parameters v = parameters w /\ params v = params w
  /\ dc_layer v = dc_layer w /\ dc_lineThickness v = dc_lineThickness w
  /\ module_pads v = module_pads w /\ module_graphics v = module_graphics w
  /\ module_texts v = module_texts w /\ module_attributes v = module_attributes w
  /\ registered v = registered w.

(** The pad in column [x] and row [y] of a grid array, columns first. *)
Definition pad_at (a : PadGridArray) (x y : Z) : option PlacedPad :=
  nth_error (array_pads a) (Z.to_nat (x * pga_ny a + y)).

(** What C1 says of one run: one pad array, built with the pitch as both
    spacings, holding rows * columns pads, one for each column [i] and row
    [j], centred at [(x0 + i * pitch, y0 + j * pitch)]; neighbours in a row
    and neighbours in a column are one pitch apart. *)
Definition is_pad_grid (w : Wizard) : Prop :=
  let c := Pads.columns (pPads (parameters w)) in
  let r := Pads.rows (pPads (parameters w)) in
  let p := Pads.pitch (pPads (parameters w)) in
  exists (array : PadGridArray) (x0 y0 : Q),
    filter is_pad_array (issued BuildThisFootprint w) = [AddPadsToModule array]
    /\ pga_nx array = c /\ pga_ny array = r
    /\ pga_px array = p /\ pga_py array = p
    /\ module_pads (final BuildThisFootprint w) = module_pads w ++ array_pads array
    /\ Z.of_nat (List.length (array_pads array)) = r * c
    /\ (forall i j : Z, 0 <= i < c -> 0 <= j < r ->
          exists pad : PlacedPad,
            pad_at array i j = Some pad
            /\ pp_name pad = NamingFunction i j
            /\ (fst (pp_pos pad) == x0 + inject_Z i * inject_Z p)%Q
            /\ (snd (pp_pos pad) == y0 + inject_Z j * inject_Z p)%Q)
    /\ (forall (i j : Z) (a b : PlacedPad),
          0 <= i -> i + 1 < c -> 0 <= j < r ->
          pad_at array i j = Some a -> pad_at array (i + 1) j = Some b ->
          (fst (pp_pos b) - fst (pp_pos a) == inject_Z p)%Q
          /\ (snd (pp_pos b) == snd (pp_pos a))%Q)
    /\ (forall (i j : Z) (a b : PlacedPad),
          0 <= i < c -> 0 <= j -> j + 1 < r ->
          pad_at array i j = Some a -> pad_at array i (j + 1) = Some b ->
          (snd (pp_pos b) - snd (pp_pos a) == inject_Z p)%Q
          /\ (fst (pp_pos b) == fst (pp_pos a))%Q).

(** ** Declared parameters *)

(** The value a declaration gives its parameter: internal units for [uMM],
    the integer itself for [uInteger]. *)
Definition declared_value (c : HostCall) : option Z :=
  match c with
  | AddParam _ _ uMM (DNum q) _ _ _ => Some (FromMM q)
  | AddParam _ _ uInteger (DNum q) _ _ _ => Some (py_int q)
  | _ => None
  end.

(** The [min_value] a list of declarations gives to a parameter. *)
Fixpoint declared_min (page name : string) (cs : list HostCall) : option Q :=
  match cs with
  | [] => None
  | AddParam pg nm _ _ min_value _ _ :: cs' =>
      if ((pg =? page) && (nm =? name))%string then min_value
      else declared_min page name cs'
  | _ :: cs' => declared_min page name cs'
  end.

(** ** Sample wizards *)

(** The values of the defaults of [GenerateParameterList], in internal units. *)
Definition default_parameters : Parameters :=
  mkParameters (Pads.mk 1000000 500000 5 5 false 25)
               (Package.mk 6000000 6000000 600000 250000)
               (SilkS.mk 1000000).

(** A wizard with an empty footprint and the given parameter values. *)
Definition fresh_wizard (p : Parameters) : Wizard :=
  mkWizard p [] F_SilkS (inject_Z 150000) [] [] [] MOD_DEFAULT [] [].

(** The same parameter values on a wizard whose drawing context and
    footprint are in another state. *)
Definition used_wizard (p : Parameters) : Wizard :=
  mkWizard p [] F_Cu (inject_Z 120000)
           [mkPlacedPad "1" (0%Q, 0%Q) (SMTRoundPad 300000)]
           [mkGraphic F_Cu (inject_Z 120000) (Circle 0 0 (inject_Z 500000) false)]
           [Text 0 0 (inject_Z 1000000) "old"] MOD_DEFAULT ["stale"%string] [].

(** A sample [str_float] for lengths that are whole numbers of nanometres:
    the decimal expansion of the millimetres with at least one digit after
    the point, as Python prints such a float in fixed notation. *)
Fixpoint drop_zeros (digits : list ascii) : list ascii :=
  match digits with
  | "0"%char :: rest => drop_zeros rest
  | _ => digits
  end.

Definition fraction_digits (micro : Z) : string :=
  let six := tl (list_ascii_of_string (str_int (1000000 + micro))) in
  match rev (drop_zeros (rev six)) with
  | [] => "0"%string
  | ds => string_of_list_ascii ds
  end.

Definition str_float_mm (q : Q) : string :=
  let micro := py_round (q * 1000000) in
  ((if (micro <? 0)%Z then "-" else "")
   ++ str_int (Z.abs micro / 1000000)%Z ++ "."
   ++ fraction_digits (Z.abs micro mod 1000000)%Z)%string.

(** ** Names, paths and boxes *)

(** The characters of a string. *)
Definition chars (s : string) : list ascii := list_ascii_of_string s.

(** The position of a character in a list, counted from 0. *)
Fixpoint index_of (c : ascii) (l : list ascii) : option nat :=
  match l with
  | [] => None
  | x :: l' => if Ascii.eqb c x then Some 0%nat else option_map S (index_of c l')
  end.

(** The number a list of letters stands for: the letters read as digits 1 to
    [len(alphabet)], the first letter of the alphabet being 1, most
    significant first; [None] when a character is not in the alphabet. *)
Definition label_value (alphabet : string) (letters : list ascii) : option Z :=
  fold_left
    (fun acc c =>
       match acc, index_of c (chars alphabet) with
       | Some v, Some i => Some (v * len alphabet + Z.of_nat i + 1)
       | _, _ => None
       end)
    letters (Some 0).

(** The number a label stands for.  Over the BGA alphabet A is 1, Y is 20,
    AA is 21 and AB is 22. *)
Definition label_number (alphabet label : string) : option Z :=
  label_value alphabet (chars label).

(** What C4 says of the name at one grid position: it is the label that
    stands for [n_y + 1] over the BGA alphabet, the only one that does,
    which ends with the letter of index [n_y mod 20] and is that single
    letter in the first twenty rows, followed by the decimal number
    [n_x + 1]. *)
Definition row_label_then_column_number (n_x n_y : Z) : Prop :=
  exists (label digits : string) (c : ascii),
    NamingFunction n_x n_y = (label ++ digits)%string
    /\ label = AlphaNameFromNumber (n_y + 1) "ABCDEFGHJKLMNPRTUVWY"
    /\ digits = str_int (n_x + 1)
    /\ label_number "ABCDEFGHJKLMNPRTUVWY" label = Some (n_y + 1)
    /\ (forall other : string,
          label_number "ABCDEFGHJKLMNPRTUVWY" other = Some (n_y + 1) -> other = label)
    /\ nth_error (chars "ABCDEFGHJKLMNPRTUVWY") (Z.to_nat (n_y mod 20)) = Some c
    /\ (exists front : string, label = (front ++ String c EmptyString)%string)
    /\ (n_y < 20 -> label = String c EmptyString)
    /\ option_map Z.of_int (NilZero.int_of_string digits) = Some (n_x + 1)
    /\ Forall (fun d => In d (chars "0123456789")) (chars digits).

(** A name made of letters of [alphabet] followed by decimal digits, at
    least one of each. *)
Definition letters_then_digits (alphabet name : string) : Prop :=
  exists letters digits : string,
    name = (letters ++ digits)%string
    /\ letters <> EmptyString /\ digits <> EmptyString
    /\ Forall (fun c => In c (chars alphabet)) (chars letters)
    /\ Forall (fun c => In c (chars "0123456789")) (chars digits).

(** A path that never turns back: from each vertex to the next, x does not
    grow and y does not shrink. *)
Fixpoint staircase (pts : list Point) : Prop :=
  match pts with
  | a :: (b :: _) as rest =>
      (fst b <= fst a)%Q /\ (snd a <= snd b)%Q /\ staircase rest
  | _ => True
  end.

(** [pin1_pos] of lines 95-96. *)
Definition pin1_pos (cols rows pad_pitch : Z) : Point :=
  ((- inject_Z ((cols - 1) * pad_pitch) / 2)%Q,
   (- inject_Z ((rows - 1) * pad_pitch) / 2)%Q).

(** The pad array [BuildThisFootprint] builds on lines 93-98. *)
Definition footprint_array (p : Parameters) : PadGridArray :=
  mkPadGridArray (SMTRoundPad (Pads.pad_size (pPads p)))
                 (Pads.columns (pPads p)) (Pads.rows (pPads p))
                 (Pads.pitch (pPads p)) (Pads.pitch (pPads p)) (0, 0).

(** The corner marker of lines 123-127. *)
Definition edge_vertices (ssx ssy len_x len_y : Q) (offset : Z) : list Point :=
  [ (ssx + inject_Z offset - len_x, - ssy - inject_Z offset) ;
    (ssx + inject_Z offset, - ssy - inject_Z offset) ;
    (ssx + inject_Z offset, - ssy - inject_Z offset + len_y) ]%Q.

(** The point [v] lies in the box of sides [w] and [h] centred on the origin. *)
Definition inside_box (w h : Q) (v : Point) : Prop :=
  (Qabs (fst v) <= w / 2)%Q /\ (Qabs (snd v) <= h / 2)%Q.

(** * Properties *)

(** ** The model at work *)

Example py_round_halves :
  py_round (5 # 2) = 3 /\ py_round (- 5 # 2) = -3 /\ py_round (7 # 3) = 2
  /\ py_int (- 7 # 2) = -3.
Proof. repeat split. Qed.

Example FromMM_constants :
  FromMM (15 # 100) = 150000 /\ FromMM (2 # 10) = 200000
  /\ FromMM (5 # 100) = 50000 /\ FromMM (1 # 10) = 100000 /\ FromMM 1 = 1000000.
Proof. repeat split. Qed.

Example NamingFunction_samples :
  NamingFunction 4 19 = "Y5"%string /\ NamingFunction 11 20 = "AA12"%string
  /\ NamingFunction 0 8 = "J1"%string.
Proof. repeat split. Qed.

Example default_values :
  map declared_value (issued GenerateParameterList (fresh_wizard default_parameters))
  = [ Some 1000000; Some 500000; Some 5; Some 5; None; Some 25;
      Some 6000000; Some 6000000; Some 600000; Some 250000; Some 1000000 ].
Proof. reflexivity. Qed.

Example margin_and_bevel_minimum :
  forall w : Wizard,
    declared_min "Package" "margin" (issued GenerateParameterList w) = Some (2 # 10)%Q
    /\ declared_min "SilkS" "bevel" (issued GenerateParameterList w) = Some (2 # 10)%Q
    /\ declared_min "Package" "width" (issued GenerateParameterList w) = None
    /\ declared_min "Package" "length" (issued GenerateParameterList w) = None.
Proof. intros w. repeat split. Qed.

Example default_pad_names :
  map pp_name (footprint_pads (fresh_wizard default_parameters))
  = [ "A1"; "B1"; "C1"; "D1"; "E1"; "A2"; "B2"; "C2"; "D2"; "E2";
      "A3"; "B3"; "C3"; "D3"; "E3"; "A4"; "B4"; "C4"; "D4"; "E4";
      "A5"; "B5"; "C5"; "D5"; "E5" ]%string.
Proof. reflexivity. Qed.

Example default_courtyard :
  on_layer F_CrtYd (footprint_graphics (fresh_wizard default_parameters))
  = [Box 0 0 (inject_Z 6500000) (inject_Z 6500000)].
Proof. reflexivity. Qed.

(** ** Arithmetic of the helpers *)

Lemma Qltb_lt (x y : Q) : Qltb x y = true <-> (x < y)%Q.
Proof.
  unfold Qltb. rewrite negb_true_iff, <- not_true_iff_false, Qle_bool_iff.
  split; [apply Qnot_le_lt | apply Qlt_not_le].
Qed.

Lemma Qltb_ge (x y : Q) : Qltb x y = false <-> (y <= x)%Q.
Proof.
  unfold Qltb. rewrite negb_false_iff. apply Qle_bool_iff.
Qed.

Lemma ToMM_lt (a b : Z) : (ToMM a < ToMM b)%Q <-> a < b.
Proof. unfold ToMM, IU_PER_MM, Qlt. simpl. lia. Qed.

Lemma ToMM_lt_1 (a : Z) : (ToMM a < 1)%Q <-> a < 1000000.
Proof. unfold ToMM, IU_PER_MM, Qlt. simpl. lia. Qed.

Lemma ToMM_le_1 (a : Z) : (ToMM a <= 1)%Q <-> a <= 1000000.
Proof. unfold ToMM, IU_PER_MM, Qle. simpl. lia. Qed.

Lemma FromMM_1 : FromMM 1 = 1000000.
Proof. reflexivity. Qed.

Lemma fab_bevel_min (bevel : Z) : fab_bevel bevel = Z.min bevel (FromMM 1).
Proof.
  unfold fab_bevel. rewrite FromMM_1.
  destruct (Qltb (ToMM bevel) 1) eqn:E.
  - apply Qltb_lt in E. pose proof (proj1 (ToMM_lt_1 bevel) E). lia.
  - apply Qltb_ge in E.
    assert (~ bevel < 1000000) as H.
    { intros C. apply (Qle_not_lt _ _ E). apply (proj2 (ToMM_lt_1 bevel) C). }
    lia.
Qed.

(** Half away from zero: [round] stays within one half of its argument. *)
Lemma py_round_near (x : Q) :
  (inject_Z (py_round x) - (1 # 2) <= x <= inject_Z (py_round x) + (1 # 2))%Q.
Proof.
  unfold py_round. destruct (Qle_bool 0 x).
  - pose proof (Qfloor_le (x + (1 # 2))) as H1.
    pose proof (Qlt_floor (x + (1 # 2))) as H2.
    rewrite inject_Z_plus in H2. change (inject_Z 1) with 1%Q in H2.
    revert H1 H2. generalize (inject_Z (Qfloor (x + (1 # 2)))). intros f H1 H2.
    lra.
  - pose proof (Qle_ceiling (x - (1 # 2))) as H1.
    pose proof (Qceiling_lt (x - (1 # 2))) as H2.
    unfold Z.sub in H2. rewrite inject_Z_plus in H2.
    change (inject_Z (- (1))) with (- (1))%Q in H2.
    revert H1 H2. generalize (inject_Z (Qceiling (x - (1 # 2)))). intros f H1 H2.
    lra.
Qed.

(** ** The host serves what a method issues *)

Lemma BuildThisFootprint_served (w : Wizard) :
  final BuildThisFootprint w = serve (issued BuildThisFootprint w) w.
Proof. reflexivity. Qed.

Lemma serve_app (cs ds : list HostCall) (w : Wizard) :
  serve (cs ++ ds) w = serve ds (serve cs w).
Proof. unfold serve. apply fold_left_app. Qed.

Lemma serve_graphics (cs : list HostCall) :
  forall w,
    module_graphics (serve cs w)
    = module_graphics w ++ drawn (dc_layer w) (dc_lineThickness w) cs.
Proof.
  induction cs as [| c cs IH]; intros w.
  - simpl. now rewrite app_nil_r.
  - change (serve (c :: cs) w) with (serve cs (host_step c w)).
    rewrite IH.
    destruct c; simpl; try reflexivity;
      try (rewrite <- app_assoc; reflexivity).
    destruct (checked_value (parameters w) page name) as [v |]; [| reflexivity].
    destruct (Qltb v min_value); reflexivity.
Qed.

Lemma serve_pads (cs : list HostCall) :
  forall w,
    module_pads (serve cs w)
    = module_pads w
      ++ flat_map (fun c => match c with AddPadsToModule a => array_pads a | _ => [] end) cs.
Proof.
  induction cs as [| c cs IH]; intros w.
  - simpl. now rewrite app_nil_r.
  - change (serve (c :: cs) w) with (serve cs (host_step c w)).
    rewrite IH.
    destruct c; simpl; try (rewrite app_nil_r); try reflexivity;
      try (rewrite <- app_assoc; reflexivity).
    destruct (checked_value (parameters w) page name) as [v |]; [| reflexivity].
    destruct (Qltb v min_value); reflexivity.
Qed.

Lemma BuildThisFootprint_graphics (w : Wizard) :
  module_graphics (final BuildThisFootprint w)
  = module_graphics w ++ footprint_graphics w.
Proof. rewrite BuildThisFootprint_served. apply serve_graphics. Qed.

Lemma BuildThisFootprint_pads (w : Wizard) :
  module_pads (final BuildThisFootprint w) = module_pads w ++ footprint_pads w.
Proof. rewrite BuildThisFootprint_served. apply serve_pads. Qed.

(** ** Labels *)

Lemma AlphaNameFromNumber_eq (n : Z) (alphabet : string) :
  AlphaNameFromNumber n alphabet
  = if 0 <? (n - 1) / len alphabet
    then (AlphaNameFromNumber ((n - 1) / len alphabet) alphabet
          ++ letter alphabet ((n - 1) mod len alphabet))%string
    else letter alphabet ((n - 1) mod len alphabet).
Proof.
  rewrite AlphaNameFromNumber_equation_1. unfold AlphaNameFromNumber_clause_1.
  destruct (Z_lt_dec 0 ((n - 1) / len alphabet)) as [H | H].
  - rewrite (proj2 (Z.ltb_lt _ _) H). reflexivity.
  - rewrite (proj2 (Z.ltb_nlt _ _) H). reflexivity.
Qed.

(** Within the first [len(alphabet)] numbers the label is one letter. *)
Lemma AlphaNameFromNumber_one_letter (n : Z) (alphabet : string) :
  1 <= n <= len alphabet ->
  AlphaNameFromNumber n alphabet = letter alphabet (n - 1).
Proof.
  intros H. rewrite AlphaNameFromNumber_eq.
  rewrite Z.div_small, Z.mod_small by lia. reflexivity.
Qed.

(** ** The fab outline and its bevel (C6) *)

(** C6: the outline drawn on F_Fab is the box with a diagonal at its corner
    whose setback is the bevel parameter when that is below 1 mm and 1 mm
    otherwise, that is the minimum of the two; it never exceeds 1 mm. *)
Theorem fab_outline_bevel :
  forall w : Wizard,
    let bevel := SilkS.bevel (pSilkS (parameters w)) in
    let ssx := (inject_Z (Package.width (pPackage (parameters w))) / 2)%Q in
    let ssy := (inject_Z (Package.length (pPackage (parameters w))) / 2)%Q in
    module_graphics (final BuildThisFootprint w)
    = module_graphics w ++ footprint_graphics w
    /\ on_layer F_Fab (footprint_graphics w)
       = [BoxWithDiagonalAtCorner 0 0 (ssx * 2) (ssy * 2) (inject_Z (fab_bevel bevel))]
    /\ ((ToMM bevel < 1)%Q /\ fab_bevel bevel = bevel
        \/ (1 <= ToMM bevel)%Q /\ fab_bevel bevel = FromMM 1)
    /\ fab_bevel bevel = Z.min bevel (FromMM 1)
    /\ (ToMM (fab_bevel bevel) <= 1)%Q.
Proof.
  intros w bevel ssx ssy.
  split; [apply BuildThisFootprint_graphics |].
  split; [reflexivity |].
  split.
  - unfold fab_bevel. destruct (Qltb (ToMM bevel) 1) eqn:E.
    + left. split; [now apply Qltb_lt | reflexivity].
    + right. split; [now apply Qltb_ge | reflexivity].
  - split; [apply fab_bevel_min |].
    apply ToMM_le_1. rewrite fab_bevel_min, FromMM_1. lia.
Qed.

(** ** The pin-1 marker (C7) *)

Lemma Qltb_compat (a b c d : Q) : (a == c)%Q -> (b == d)%Q -> Qltb a b = Qltb c d.
Proof.
  intros H1 H2.
  destruct (Qltb a b) eqn:E1, (Qltb c d) eqn:E2; try reflexivity.
  - apply Qltb_lt in E1. apply Qltb_ge in E2. rewrite H1, H2 in E1.
    exfalso. exact (Qle_not_lt _ _ E2 E1).
  - apply Qltb_ge in E1. apply Qltb_lt in E2. rewrite <- H1, <- H2 in E2.
    exfalso. exact (Qle_not_lt _ _ E1 E2).
Qed.

Lemma Qltb_dec (a b c : Q) (A : Type) (x y : A) :
  (a == c)%Q ->
  (if Qltb a b then x else y) = (if Qlt_le_dec c b then x else y).
Proof.
  intros E. rewrite (Qltb_compat a b c b E (Qeq_refl b)).
  destruct (Qlt_le_dec c b) as [H | H].
  - apply Qltb_lt in H. now rewrite H.
  - apply Qltb_ge in H. now rewrite H.
Qed.

Lemma pin1_marker_cases (ssx ssy len_x len_y qx qy : Q) (offset bevel : Z)
      (v0 v1 v2 v3 : Point) :
  (len_x == qx)%Q -> (len_y == qy)%Q ->
  pin1_vertices ssx ssy len_x len_y offset bevel = [v0; v1; v2; v3] ->
  pin1_marker ssx ssy len_x len_y offset bevel
  = (if Qlt_le_dec qx (inject_Z bevel) then [] else [v0])
    ++ [v1; v2]
    ++ (if Qlt_le_dec qy (inject_Z bevel) then [] else [v3]).
Proof.
  intros Ex Ey Ev. unfold pin1_marker. rewrite Ev.
  rewrite (Qltb_dec len_x (inject_Z bevel) qx _ _ _ Ex).
  destruct (Qlt_le_dec qx (inject_Z bevel));
    rewrite (Qltb_dec len_y (inject_Z bevel) qy _ _ _ Ey);
    destruct (Qlt_le_dec qy (inject_Z bevel)); reflexivity.
Qed.

(** C7: the pin-1 marker is built from four vertices; the first is dropped
    exactly when the effective bevel plus the 0.15 mm offset exceeds a
    quarter of the width, the last exactly when it exceeds a quarter of the
    length; the polyline drawn keeps between two and four vertices. *)
Theorem pin1_marker_keeps_two_vertices :
  forall w : Wizard,
    let width := Package.width (pPackage (parameters w)) in
    let length := Package.length (pPackage (parameters w)) in
    let offset := FromMM (15 # 100) in
    let bevel := fab_bevel (SilkS.bevel (pSilkS (parameters w))) + offset in
    exists (v0 v1 v2 v3 : Point) (pin1 : list Point),
      pin1_vertices (inject_Z width / 2) (inject_Z length / 2)
                    ((1 # 2) * (inject_Z width / 2)) ((1 # 2) * (inject_Z length / 2))
                    offset bevel
      = [v0; v1; v2; v3]
      /\ nth_error (on_layer F_SilkS (footprint_graphics w)) 3
         = Some (Polyline pin1 None None)
      /\ pin1
         = (if Qlt_le_dec (inject_Z width / 4) (inject_Z bevel) then [] else [v0])
           ++ [v1; v2]
           ++ (if Qlt_le_dec (inject_Z length / 4) (inject_Z bevel) then [] else [v3])
      /\ (2 <= List.length pin1 <= 4)%nat
      /\ (ToMM offset == 15 # 100)%Q.
Proof.
  intros w width length offset bevel.
  do 4 eexists.
  exists (pin1_marker (inject_Z width / 2) (inject_Z length / 2)
                      ((1 # 2) * (inject_Z width / 2))
                      ((1 # 2) * (inject_Z length / 2)) offset bevel).
  split; [reflexivity |].
  split; [reflexivity |].
  rewrite (pin1_marker_cases _ _ _ _ (inject_Z width / 4) (inject_Z length / 4)
             _ _ _ _ _ _) by (try reflexivity; field).
  split; [reflexivity |].
  split; [| reflexivity].
  destruct (Qlt_le_dec (inject_Z width / 4) (inject_Z bevel));
    destruct (Qlt_le_dec (inject_Z length / 4) (inject_Z bevel));
    simpl; lia.
Qed.

(** ** The courtyard (C3) *)

Lemma FromMM_tenth : FromMM (1 # 10) = 100000.
Proof. reflexivity. Qed.

Lemma PutOnGridMM_tenth (v : Z) (q : Q) :
  (q == inject_Z v)%Q -> rounded_to_tenth_mm (PutOnGridMM q (1 # 10)) (inject_Z v).
Proof.
  intros E. unfold rounded_to_tenth_mm, PutOnGridMM. rewrite FromMM_tenth.
  split.
  - exists (py_round (q / inject_Z 100000)). now rewrite inject_Z_mult.
  - pose proof (py_round_near (q / inject_Z 100000)) as H.
    revert H. generalize (inject_Z (py_round (q / inject_Z 100000))). intros r H.
    rewrite <- E. clear E.
    change (inject_Z 100000) with (100000 # 1)%Q in *.
    change (inject_Z 50000) with (50000 # 1)%Q.
    assert (q / (100000 # 1) == q * (1 # 100000))%Q as D by (field; discriminate).
    rewrite D in H. lra.
Qed.

Lemma ToMM_ge_fifth (m : Z) : (2 # 10 <= ToMM m)%Q <-> 200000 <= m.
Proof. unfold ToMM, IU_PER_MM, Qle. simpl. lia. Qed.

Lemma courtyard_size (v m : Z) :
  (((inject_Z v / 2 + inject_Z m) * 2)%Q == inject_Z (v + 2 * m))%Q.
Proof. rewrite inject_Z_plus, inject_Z_mult. change (inject_Z 2) with 2%Q. field. Qed.

Lemma fab_size (v : Z) : ((inject_Z v / 2 * 2)%Q == inject_Z v)%Q.
Proof. field. Qed.

Lemma half_extent_le (a b : Q) :
  (0 <= a)%Q -> (a <= b)%Q ->
  (0 - Qabs b / 2 <= 0 - Qabs a / 2)%Q /\ (0 + Qabs a / 2 <= 0 + Qabs b / 2)%Q.
Proof.
  intros Ha Hab.
  rewrite (Qabs_pos a) by exact Ha.
  rewrite (Qabs_pos b) by (apply Qle_trans with a; assumption).
  assert (a / 2 == a * (1 # 2))%Q as Da by field.
  assert (b / 2 == b * (1 # 2))%Q as Db by field.
  rewrite Da, Db. split; lra.
Qed.

(** C3: for a package width and length, which are lengths and so not
    negative, and a courtyard margin of at least 0.2 mm, the only graphic on
    F_CrtYd is a box centred at the origin whose sides are width + 2 margin
    and length + 2 margin, each rounded to the nearest 0.1 mm, and it
    contains the width-by-length package box drawn on F_Fab.  Every package
    that [CheckParameters] accepts for a pitch, a number of columns and a
    number of rows that are not negative is of that kind
    ([checked_package_not_negative]). *)
Theorem courtyard_contains_package_box :
  forall w : Wizard,
    0 <= Package.width (pPackage (parameters w)) ->
    0 <= Package.length (pPackage (parameters w)) ->
    (2 # 10 <= ToMM (Package.margin (pPackage (parameters w))))%Q ->
    courtyard_encloses_package w.
Proof.
  intros w Hw Hl Hm. apply ToMM_ge_fifth in Hm.
  unfold courtyard_encloses_package.
  set (width := Package.width (pPackage (parameters w))) in *.
  set (length := Package.length (pPackage (parameters w))) in *.
  set (cmargin := Package.margin (pPackage (parameters w))) in *.
  pose proof (PutOnGridMM_tenth (width + 2 * cmargin) _ (courtyard_size width cmargin)) as Hx.
  pose proof (PutOnGridMM_tenth (length + 2 * cmargin) _ (courtyard_size length cmargin)) as Hy.
  do 5 eexists.
  split; [reflexivity |].
  split; [exact Hx |].
  split; [exact Hy |].
  split; [reflexivity |].
  split; [apply fab_size |].
  split; [apply fab_size |].
  destruct Hx as [_ [Hx _]]. destruct Hy as [_ [Hy _]].
  rewrite inject_Z_plus, inject_Z_mult in Hx, Hy.
  assert (inject_Z 200000 <= inject_Z cmargin)%Q as Qm by (rewrite <- Zle_Qle; lia).
  assert (inject_Z 0 <= inject_Z width)%Q as Pw by (rewrite <- Zle_Qle; lia).
  assert (inject_Z 0 <= inject_Z length)%Q as Pl by (rewrite <- Zle_Qle; lia).
  change (inject_Z 200000) with (200000 # 1)%Q in Qm.
  change (inject_Z 50000) with (50000 # 1)%Q in Hx, Hy.
  change (inject_Z 2) with 2%Q in Hx, Hy.
  change (inject_Z 0) with 0%Q in Pw, Pl.
  unfold rect_contains, r_left, r_right, r_top, r_bottom.
  cbn [r_x r_y r_w r_h].
  pose proof (half_extent_le (inject_Z width / 2 * 2)
                (PutOnGridMM ((inject_Z width / 2 + inject_Z cmargin) * 2) (1 # 10))) as Cx.
  pose proof (half_extent_le (inject_Z length / 2 * 2)
                (PutOnGridMM ((inject_Z length / 2 + inject_Z cmargin) * 2) (1 # 10))) as Cy.
  rewrite fab_size in Cx, Cy.
  destruct Cx as [Cx1 Cx2]; [exact Pw | lra |].
  destruct Cy as [Cy1 Cy2]; [exact Pl | lra |].
  rewrite !fab_size.
  repeat split; assumption.
Qed.

(** The default package: 6 mm by 6 mm with a margin of 0.25 mm. *)
Lemma courtyard_contains_package_box_witness :
  courtyard_encloses_package (fresh_wizard default_parameters).
Proof.
  apply courtyard_contains_package_box.
  - simpl. lia.
  - simpl. lia.
  - apply ToMM_ge_fifth. simpl. lia.
Defined.

(** ** The constituents of the footprint (C9) *)

(** C9: a run of [BuildThisFootprint] adds the pad array of lines 93-98;
    draws on F_SilkS the three corner edge markers, each the same three
    vertices 0.15 mm outside the package corner, the pin-1 marker with its
    diagonal and the arms the package leaves room for, and a filled circle
    of radius 0.2 mm at the pin-1 corner; draws on F_CrtYd the courtyard
    box, whose sides are width + 2 margin and length + 2 margin rounded to
    0.1 mm; draws on F_Fab the width-by-length outline with the bevel capped
    at 1 mm; places the value text at y = length/2 + text size and the
    reference text at the opposite y, the text size being 1 mm; and sets the
    SMD attribute. *)
Theorem BuildThisFootprint_constituents :
  forall w : Wizard,
    let p := parameters w in
    let width := Package.width (pPackage p) in
    let length := Package.length (pPackage p) in
    let cmargin := Package.margin (pPackage p) in
    let bevel := Z.min (SilkS.bevel (pSilkS p)) 1000000 in
    let ssx := (inject_Z width / 2)%Q in
    let ssy := (inject_Z length / 2)%Q in
    let o := inject_Z 150000 in
    let b := inject_Z (bevel + 150000) in
    let text_size := inject_Z 1000000 in
    let array :=
      mkPadGridArray (SMTRoundPad (Pads.pad_size (pPads p)))
                     (Pads.columns (pPads p)) (Pads.rows (pPads p))
                     (Pads.pitch (pPads p)) (Pads.pitch (pPads p)) (0, 0) in
    let edge :=
      [ (ssx + o - (1 # 2) * ssx, - ssy - o);
        (ssx + o, - ssy - o);
        (ssx + o, - ssy - o + (1 # 2) * ssy) ]%Q in
    let pin1 :=
      ((if Qlt_le_dec (inject_Z width / 4) b
        then [] else [(- ssx - o + (1 # 2) * ssx, - ssy - o)])
       ++ [ (- ssx - o + b, - ssy - o); (- ssx - o, - ssy - o + b) ]
       ++ (if Qlt_le_dec (inject_Z length / 4) b
           then [] else [(- ssx - o, - ssy - o + (1 # 2) * ssy)]))%Q in
    let sizex := PutOnGridMM ((ssx + inject_Z cmargin) * 2) (1 # 10) in
    let sizey := PutOnGridMM ((ssy + inject_Z cmargin) * 2) (1 # 10) in
    filter is_pad_array (issued BuildThisFootprint w) = [AddPadsToModule array]
    /\ module_pads (final BuildThisFootprint w) = module_pads w ++ array_pads array
    /\ module_graphics (final BuildThisFootprint w)
       = module_graphics w ++ footprint_graphics w
    /\ on_layer F_SilkS (footprint_graphics w)
       = [ Polyline edge None None;
           Polyline edge None (Some 0%Q);
           Polyline edge (Some 0%Q) (Some 0%Q);
           Polyline pin1 None None;
           Circle (- ssx) (- ssy) (inject_Z 200000) true ]
    /\ (2 <= List.length pin1 <= 4)%nat
    /\ ToMM 150000 == 15 # 100
    /\ ToMM 200000 == 2 # 10
    /\ on_layer F_CrtYd (footprint_graphics w) = [Box 0 0 sizex sizey]
    /\ rounded_to_tenth_mm sizex (inject_Z (width + 2 * cmargin))
    /\ rounded_to_tenth_mm sizey (inject_Z (length + 2 * cmargin))
    /\ on_layer F_Fab (footprint_graphics w)
       = [BoxWithDiagonalAtCorner 0 0 (ssx * 2) (ssy * 2) (inject_Z bevel)]
    /\ ssx * 2 == inject_Z width
    /\ ssy * 2 == inject_Z length
    /\ on_layer F_Cu (footprint_graphics w) = []
    /\ module_texts (final BuildThisFootprint w)
       = module_texts w
         ++ [ Value 0 (ssy + text_size) text_size;
              Reference 0 (- (ssy + text_size)) text_size;
              Text 0 0 text_size "%R" ]
    /\ ToMM 1000000 == 1
    /\ module_attributes (final BuildThisFootprint w) = MOD_CMS.
Proof.
  intros w p width length cmargin bevel ssx ssy o b text_size array edge pin1 sizex sizey.
  assert (Eb : bevel = fab_bevel (SilkS.bevel (pSilkS p)))
    by (symmetry; apply fab_bevel_min).
  split; [reflexivity |].
  split; [reflexivity |].
  split; [apply BuildThisFootprint_graphics |].
  split.
  { transitivity
      [ Polyline edge None None;
        Polyline edge None (Some 0%Q);
        Polyline edge (Some 0%Q) (Some 0%Q);
        Polyline (pin1_marker ssx ssy ((1 # 2) * ssx) ((1 # 2) * ssy) 150000
                              (fab_bevel (SilkS.bevel (pSilkS p)) + 150000)) None None;
        Circle (- ssx) (- ssy) (inject_Z 200000) true ];
      [reflexivity |].
    rewrite <- Eb.
    rewrite (pin1_marker_cases ssx ssy ((1 # 2) * ssx) ((1 # 2) * ssy)
               (inject_Z width / 4) (inject_Z length / 4) 150000 (bevel + 150000)
               (- ssx - o + (1 # 2) * ssx, - ssy - o)%Q
               (- ssx - o + b, - ssy - o)%Q
               (- ssx - o, - ssy - o + b)%Q
               (- ssx - o, - ssy - o + (1 # 2) * ssy)%Q);
      [reflexivity | unfold ssx; field | unfold ssy; field | reflexivity]. }
  split.
  { unfold pin1.
    destruct (Qlt_le_dec (inject_Z width / 4) b);
      destruct (Qlt_le_dec (inject_Z length / 4) b); cbn; lia. }
  split; [reflexivity |].
  split; [reflexivity |].
  split; [reflexivity |].
  split; [apply PutOnGridMM_tenth, courtyard_size |].
  split; [apply PutOnGridMM_tenth, courtyard_size |].
  split; [rewrite Eb; reflexivity |].
  split; [apply fab_size |].
  split; [apply fab_size |].
  split; [reflexivity |].
  split.
  { cbv [final BuildThisFootprint bind call self_parameters fst snd host_step
         module_texts].
    rewrite <- !app_assoc. reflexivity. }
  split; reflexivity.
Qed.

(** ** The parameter check (C5) *)

Lemma checked_value_width (p : Parameters) :
  checked_value p "Package" "width" = Some (ToMM (Package.width (pPackage p))).
Proof. reflexivity. Qed.

Lemma checked_value_length (p : Parameters) :
  checked_value p "Package" "length" = Some (ToMM (Package.length (pPackage p))).
Proof. reflexivity. Qed.

(** C5: [CheckParameters] checks the package width against pitch * columns
    and the package length against pitch * rows, both in millimetres, and
    reports an error exactly when one of the two is below its minimum. *)
Theorem CheckParameters_reports :
  forall (str_float : Q -> string) (w : Wizard),
    let p := parameters w in
    let width_min := ToMM (Pads.pitch (pPads p) * Pads.columns (pPads p)) in
    let length_min := ToMM (Pads.pitch (pPads p) * Pads.rows (pPads p)) in
    exists (info_w info_l : string) (reported : list string),
      issued (CheckParameters str_float) w
      = [ CheckParam "Package" "width" width_min info_w;
          CheckParam "Package" "length" length_min info_l ]
      /\ errors (final (CheckParameters str_float) w) = errors w ++ reported
      /\ (reported <> []
          <-> (ToMM (Package.width (pPackage p)) < width_min)%Q
              \/ (ToMM (Package.length (pPackage p)) < length_min)%Q)
      /\ (reported <> []
          <-> Package.width (pPackage p) < Pads.pitch (pPads p) * Pads.columns (pPads p)
              \/ Package.length (pPackage p) < Pads.pitch (pPads p) * Pads.rows (pPads p))
      /\ (reported = []
          <-> (width_min <= ToMM (Package.width (pPackage p)))%Q
              /\ (length_min <= ToMM (Package.length (pPackage p)))%Q).
Proof.
  intros str_float w p width_min length_min.
  set (bw := Qltb (ToMM (Package.width (pPackage p))) width_min).
  set (bl := Qltb (ToMM (Package.length (pPackage p))) length_min).
  set (info_w := ("Package width is too small (< " ++ str_float width_min ++ "mm)")%string).
  set (info_l := ("Package length is too small (< " ++ str_float length_min ++ "mm")%string).
  exists info_w, info_l.
  exists ((if bw then [info_w] else []) ++ (if bl then [info_l] else [])).
  split; [reflexivity |].
  split.
  { unfold final, CheckParameters, bind, call, self_parameters.
    cbn [fst snd]. fold p. fold width_min. fold length_min. fold info_w. fold info_l.
    unfold host_step at 2. rewrite checked_value_width. fold p. fold width_min. fold bw.
    destruct bw; unfold host_step; rewrite checked_value_length;
      cbn [parameters errors]; fold p; fold length_min; fold bl;
      destruct bl; cbn [errors app]; rewrite <- ?app_assoc, ?app_nil_r; reflexivity. }
  assert (Hw : bw = true <-> (ToMM (Package.width (pPackage p)) < width_min)%Q)
    by apply Qltb_lt.
  assert (Hl : bl = true <-> (ToMM (Package.length (pPackage p)) < length_min)%Q)
    by apply Qltb_lt.
  assert (Hw' : bw = false <-> (width_min <= ToMM (Package.width (pPackage p)))%Q)
    by apply Qltb_ge.
  assert (Hl' : bl = false <-> (length_min <= ToMM (Package.length (pPackage p)))%Q)
    by apply Qltb_ge.
  unfold width_min, length_min in *. rewrite <- !ToMM_lt.
  destruct bw, bl; cbn [app]; intuition (try discriminate; try congruence).
Qed.

(** ** The footprint name (C2) *)

Example GetValue_defaults :
  result (GetValue str_float_mm) (fresh_wizard default_parameters)
  = "BGA-25_6.0x6.0mm_Layout5x5_P1.0mm_Ball0.6mm_Pad0.5mm_NSMD"%string.
Proof. reflexivity. Qed.

Lemma Parameters_ext (p q : Parameters) :
  Pads.pitch (pPads p) = Pads.pitch (pPads q) ->
  Pads.pad_size (pPads p) = Pads.pad_size (pPads q) ->
  Pads.columns (pPads p) = Pads.columns (pPads q) ->
  Pads.rows (pPads p) = Pads.rows (pPads q) ->
  Pads.override (pPads p) = Pads.override (pPads q) ->
  Pads.pads_count (pPads p) = Pads.pads_count (pPads q) ->
  Package.width (pPackage p) = Package.width (pPackage q) ->
  Package.length (pPackage p) = Package.length (pPackage q) ->
  Package.ball_size (pPackage p) = Package.ball_size (pPackage q) ->
  Package.margin (pPackage p) = Package.margin (pPackage q) ->
  SilkS.bevel (pSilkS p) = SilkS.bevel (pSilkS q) ->
  p = q.
Proof.
  destruct p as [[? ? ? ? ? ?] [? ? ? ?] [?]], q as [[? ? ? ? ? ?] [? ? ? ?] [?]].
  cbn. intros. subst. reflexivity.
Qed.

(** C2: two runs on wizards whose eleven parameters have equal values return
    the same footprint name and issue the same sequence of host calls,
    whatever else differs between the two wizards. *)
Theorem name_and_calls_depend_on_parameters_only :
  forall (str_float : Q -> string) (w1 w2 : Wizard),
    Pads.pitch (pPads (parameters w1)) = Pads.pitch (pPads (parameters w2)) ->
    Pads.pad_size (pPads (parameters w1)) = Pads.pad_size (pPads (parameters w2)) ->
    Pads.columns (pPads (parameters w1)) = Pads.columns (pPads (parameters w2)) ->
    Pads.rows (pPads (parameters w1)) = Pads.rows (pPads (parameters w2)) ->
    Pads.override (pPads (parameters w1)) = Pads.override (pPads (parameters w2)) ->
    Pads.pads_count (pPads (parameters w1)) = Pads.pads_count (pPads (parameters w2)) ->
    Package.width (pPackage (parameters w1)) = Package.width (pPackage (parameters w2)) ->
    Package.length (pPackage (parameters w1)) = Package.length (pPackage (parameters w2)) ->
    Package.ball_size (pPackage (parameters w1))
    = Package.ball_size (pPackage (parameters w2)) ->
    Package.margin (pPackage (parameters w1)) = Package.margin (pPackage (parameters w2)) ->
    SilkS.bevel (pSilkS (parameters w1)) = SilkS.bevel (pSilkS (parameters w2)) ->
    result (GetValue str_float) w1 = result (GetValue str_float) w2
    /\ issued (GetValue str_float) w1 = issued (GetValue str_float) w2
    /\ issued BuildThisFootprint w1 = issued BuildThisFootprint w2.
Proof.
  intros str_float w1 w2 H1 H2 H3 H4 H5 H6 H7 H8 H9 H10 H11.
  pose proof (Parameters_ext _ _ H1 H2 H3 H4 H5 H6 H7 H8 H9 H10 H11) as E.
  split; [| split].
  - change (result (GetValue str_float) (fresh_wizard (parameters w1))
            = result (GetValue str_float) (fresh_wizard (parameters w2))).
    now rewrite E.
  - reflexivity.
  - change (issued BuildThisFootprint (fresh_wizard (parameters w1))
            = issued BuildThisFootprint (fresh_wizard (parameters w2))).
    now rewrite E.
Qed.

(** The default parameters on a fresh and on a used wizard. *)
Lemma name_and_calls_depend_on_parameters_only_witness :
  result (GetValue str_float_mm) (fresh_wizard default_parameters)
  = result (GetValue str_float_mm) (used_wizard default_parameters)
  /\ issued (GetValue str_float_mm) (fresh_wizard default_parameters)
     = issued (GetValue str_float_mm) (used_wizard default_parameters)
  /\ issued BuildThisFootprint (fresh_wizard default_parameters)
     = issued BuildThisFootprint (used_wizard default_parameters).
Proof.
  apply (name_and_calls_depend_on_parameters_only
           str_float_mm (fresh_wizard default_parameters) (used_wizard default_parameters));
    reflexivity.
Defined.

(** ** Registration (C8) *)

(** C8: executing the file constructs one BGAWizard and registers it once,
    as the last thing it does; no method of the wizard registers. *)
Theorem module_registers_once :
  forall (str_float : Q -> string) (w : Wizard),
    issued module_body w
    = [Import_ "pcbnew"; Import_ "FootprintWizardBase"; Import_ "PadArray"]
      ++ issued BGAWizard_new w ++ [register]
    /\ filter is_constructor (issued module_body w) = [FootprintWizard_init "BGAWizard"]
    /\ filter is_register (issued module_body w) = [register]
    /\ last (issued module_body w) (Import_ "") = register
    /\ registered (final module_body w) = registered w ++ ["BGAWizard"%string]
    /\ filter is_register (issued GetName w) = []
    /\ filter is_register (issued GetDescription w) = []
    /\ filter is_register (issued GenerateParameterList w) = []
    /\ filter is_register (issued (CheckParameters str_float) w) = []
    /\ filter is_register (issued (GetValue str_float) w) = []
    /\ filter is_register (issued BuildThisFootprint w) = [].
Proof.
  intros str_float w.
  split; [reflexivity |].
  split; [reflexivity |].
  split; [reflexivity |].
  split; [reflexivity |].
  split; [reflexivity |].
  repeat (split; [reflexivity |]). reflexivity.
Qed.

(** ** Effects (C10) *)

(** What a call of the pad, drawing and footprint API leaves alone. *)
Lemma host_step_footprint_frame (c : HostCall) (w : Wizard) :
  is_footprint_api c = true ->
  parameters (host_step c w) = parameters w
  /\ params (host_step c w) = params w
  /\ errors (host_step c w) = errors w
  /\ registered (host_step c w) = registered w.
Proof.
  destruct c; cbn; intros H; try discriminate H; repeat split.
Qed.

Lemma serve_footprint_frame (cs : list HostCall) :
  forall w,
    forallb is_footprint_api cs = true ->
    parameters (serve cs w) = parameters w
    /\ params (serve cs w) = params w
    /\ errors (serve cs w) = errors w
    /\ registered (serve cs w) = registered w.
Proof.
  induction cs as [| c cs IH]; intros w H.
  - repeat split.
  - cbn [forallb] in H. apply andb_true_iff in H. destruct H as [Hc Hcs].
    change (serve (c :: cs) w) with (serve cs (host_step c w)).
    destruct (IH (host_step c w) Hcs) as (E1 & E2 & E3 & E4).
    destruct (host_step_footprint_frame c w Hc) as (F1 & F2 & F3 & F4).
    rewrite E1, E2, E3, E4. repeat split; assumption.
Qed.

Lemma same_but_errors_refl (w : Wizard) : same_but_errors w w.
Proof. repeat split. Qed.

Lemma same_but_errors_trans (u v w : Wizard) :
  same_but_errors u v -> same_but_errors v w -> same_but_errors u w.
Proof.
  unfold same_but_errors. intros H K.
  repeat match goal with H : _ /\ _ |- _ => destruct H end.
  repeat split; etransitivity; eassumption.
Qed.

Lemma host_step_check_frame (c : HostCall) (w : Wizard) :
  is_check c = true -> same_but_errors w (host_step c w).
Proof.
  destruct c; cbn [is_check]; intros H; try discriminate H.
  unfold host_step.
  destruct (checked_value (parameters w) page name) as [v |];
    [destruct (Qltb v min_value) |]; repeat split.
Qed.

Lemma serve_check_frame (cs : list HostCall) :
  forall w, forallb is_check cs = true -> same_but_errors w (serve cs w).
Proof.
  induction cs as [| c cs IH]; intros w H.
  - apply same_but_errors_refl.
  - cbn [forallb] in H. apply andb_true_iff in H. destruct H as [Hc Hcs].
    change (serve (c :: cs) w) with (serve cs (host_step c w)).
    eapply same_but_errors_trans; [apply host_step_check_frame, Hc | apply IH, Hcs].
Qed.

(** C10: [GetName], [GetDescription] and [GetValue] issue no call and leave
    the wizard as it is; [CheckParameters] only issues parameter checks,
    which touch nothing but the error list; the state after
    [BuildThisFootprint] is the one the host reaches by serving the calls
    issued, all of which belong to the pad, drawing and footprint API and
    leave the parameters, their declarations, the errors and the
    registration untouched.  No other effect exists. *)
Theorem wizard_effects_are_host_calls :
  forall (str_float : Q -> string) (w : Wizard),
    (issued GetName w = [] /\ final GetName w = w)
    /\ (issued GetDescription w = [] /\ final GetDescription w = w)
    /\ (issued (GetValue str_float) w = [] /\ final (GetValue str_float) w = w)
    /\ (final (CheckParameters str_float) w
        = serve (issued (CheckParameters str_float) w) w
        /\ forallb is_check (issued (CheckParameters str_float) w) = true
        /\ same_but_errors w (final (CheckParameters str_float) w))
    /\ (final BuildThisFootprint w = serve (issued BuildThisFootprint w) w
        /\ forallb is_footprint_api (issued BuildThisFootprint w) = true
        /\ parameters (final BuildThisFootprint w) = parameters w
        /\ params (final BuildThisFootprint w) = params w
        /\ errors (final BuildThisFootprint w) = errors w
        /\ registered (final BuildThisFootprint w) = registered w).
Proof.
  intros str_float w.
  split; [split; reflexivity |].
  split; [split; reflexivity |].
  split; [split; reflexivity |].
  split.
  - split; [reflexivity |]. split; [reflexivity |].
    change (final (CheckParameters str_float) w)
      with (serve (issued (CheckParameters str_float) w) w).
    apply serve_check_frame. reflexivity.
  - split; [reflexivity |]. split; [reflexivity |].
    rewrite BuildThisFootprint_served.
    apply serve_footprint_frame. reflexivity.
Qed.

(** ** The pad grid (C1) *)

Lemma py_range_length (n : Z) : List.length (py_range n) = Z.to_nat n.
Proof. unfold py_range. now rewrite length_map, length_seq. Qed.

Lemma py_range_nth (n i : Z) :
  0 <= i < n -> nth_error (py_range n) (Z.to_nat i) = Some i.
Proof.
  intros H. unfold py_range.
  rewrite nth_error_map, nth_error_seq.
  destruct (Nat.ltb_spec (Z.to_nat i) (Z.to_nat n)) as [_ | C]; [| lia].
  cbn. now rewrite Z2Nat.id by lia.
Qed.

Section Rows.

Variables (A B : Type) (f : A -> list B) (m : nat).
Hypothesis row_length : forall x, List.length (f x) = m.

Lemma flat_map_rows_length (l : list A) :
  List.length (flat_map f l) = (List.length l * m)%nat.
Proof.
  induction l as [| x l IH]; [reflexivity |].
  cbn. now rewrite length_app, row_length, IH.
Qed.

Lemma flat_map_rows_nth (l : list A) :
  forall (i j : nat) (x : A),
    nth_error l i = Some x -> (j < m)%nat ->
    nth_error (flat_map f l) (i * m + j) = nth_error (f x) j.
Proof.
  induction l as [| y l IH]; intros i j x Hx Hj.
  - destruct i; discriminate Hx.
  - destruct i as [| i].
    + injection Hx as ->. cbn.
      rewrite nth_error_app1 by (rewrite row_length; exact Hj). reflexivity.
    + cbn [nth_error] in Hx. cbn [flat_map].
      rewrite nth_error_app2 by (rewrite row_length; lia).
      rewrite row_length.
      replace (S i * m + j - m)%nat with (i * m + j)%nat by lia.
      now apply IH.
Qed.

End Rows.

Lemma array_pads_length (a : PadGridArray) :
  List.length (array_pads a) = (Z.to_nat (pga_nx a) * Z.to_nat (pga_ny a))%nat.
Proof.
  unfold array_pads.
  rewrite (flat_map_rows_length _ _ _ (Z.to_nat (pga_ny a))).
  - now rewrite py_range_length.
  - intros x. now rewrite length_map, py_range_length.
Qed.

Lemma pad_at_grid (a : PadGridArray) (x y : Z) :
  0 <= x < pga_nx a -> 0 <= y < pga_ny a ->
  pad_at a x y = Some (mkPlacedPad (NamingFunction x y) (pad_position a x y) (pga_pad a)).
Proof.
  intros Hx Hy. unfold pad_at, array_pads.
  replace (Z.to_nat (x * pga_ny a + y))
    with (Z.to_nat x * Z.to_nat (pga_ny a) + Z.to_nat y)%nat by nia.
  rewrite (flat_map_rows_nth _ _ _ (Z.to_nat (pga_ny a))) with (x := x).
  - rewrite nth_error_map, py_range_nth by exact Hy. reflexivity.
  - intros x'. now rewrite length_map, py_range_length.
  - now apply py_range_nth.
  - lia.
Qed.

Lemma pad_position_grid (a : PadGridArray) (x y : Z) :
  (fst (pad_position a x y)
   == fst (pad_position a 0 0) + inject_Z x * inject_Z (pga_px a))%Q
  /\ (snd (pad_position a x y)
      == snd (pad_position a 0 0) + inject_Z y * inject_Z (pga_py a))%Q.
Proof.
  unfold pad_position. cbn [fst snd].
  rewrite Z.mul_0_l, Z.mul_0_r, !inject_Z_mult.
  change (inject_Z 0) with 0%Q.
  split; ring.
Qed.

(** C1: with at least one column and one row, [BuildThisFootprint] adds
    exactly one pad array, built with the pitch as both the x and the y
    spacing; it holds rows * columns pads whose centres form the grid
    [(x0 + i * pitch, y0 + j * pitch)], neighbours in a row and neighbours in
    a column being one pitch apart. *)
Theorem pad_grid :
  forall w : Wizard,
    1 <= Pads.columns (pPads (parameters w)) ->
    1 <= Pads.rows (pPads (parameters w)) ->
    is_pad_grid w.
Proof.
  intros w Hc Hr. unfold is_pad_grid.
  set (c := Pads.columns (pPads (parameters w))) in *.
  set (r := Pads.rows (pPads (parameters w))) in *.
  set (p := Pads.pitch (pPads (parameters w))) in *.
  set (array := mkPadGridArray (SMTRoundPad (Pads.pad_size (pPads (parameters w))))
                               c r p p (0, 0)).
  exists array, (fst (pad_position array 0 0)), (snd (pad_position array 0 0)).
  split; [reflexivity |].
  do 4 (split; [reflexivity |]).
  split; [reflexivity |].
  split; [rewrite array_pads_length; cbn [pga_nx pga_ny array]; nia |].
  split; [| split].
  - intros i j Hi Hj. eexists.
    split; [apply pad_at_grid; assumption |].
    split; [reflexivity |].
    cbn [pp_pos]. apply (pad_position_grid array i j).
  - intros i j a b Hi Hi' Hj Ha Hb.
    rewrite pad_at_grid in Ha, Hb by (cbn [pga_nx pga_ny array]; lia).
    injection Ha as <-. injection Hb as <-. cbn [pp_pos].
    destruct (pad_position_grid array i j) as [Xa Ya].
    destruct (pad_position_grid array (i + 1) j) as [Xb Yb].
    rewrite Xa, Xb, Ya, Yb, inject_Z_plus. cbn [pga_px array].
    change (inject_Z 1) with 1%Q. split; ring.
  - intros i j a b Hi Hj Hj' Ha Hb.
    rewrite pad_at_grid in Ha, Hb by (cbn [pga_nx pga_ny array]; lia).
    injection Ha as <-. injection Hb as <-. cbn [pp_pos].
    destruct (pad_position_grid array i j) as [Xa Ya].
    destruct (pad_position_grid array i (j + 1)) as [Xb Yb].
    rewrite Xa, Xb, Ya, Yb, inject_Z_plus. cbn [pga_py array].
    change (inject_Z 1) with 1%Q. split; ring.
Qed.

(** The default grid of 5 columns and 5 rows. *)
Lemma pad_grid_witness : is_pad_grid (fresh_wizard default_parameters).
Proof.
  apply pad_grid.
  - cbn. lia.
  - cbn. lia.
Defined.

(** ** Characters and labels *)

Lemma chars_append (s t : string) : chars (s ++ t) = chars s ++ chars t.
Proof. unfold chars. induction s as [| c s IH]; cbn; [reflexivity | now rewrite IH]. Qed.

Lemma chars_inj (s t : string) : chars s = chars t -> s = t.
Proof.
  intros H. rewrite <- (string_of_list_ascii_of_string s), <- (string_of_list_ascii_of_string t).
  unfold chars in H. now rewrite H.
Qed.

Lemma chars_length (s : string) : List.length (chars s) = String.length s.
Proof. unfold chars. induction s as [| c s IH]; cbn; [reflexivity | now rewrite IH]. Qed.

Lemma get_nth_error (s : string) : forall k, String.get k s = nth_error (chars s) k.
Proof.
  unfold chars. induction s as [| c s IH]; intros [| k]; cbn; try reflexivity. apply IH.
Qed.

Lemma py_range_In (n i : Z) : In i (py_range n) <-> 0 <= i < n.
Proof.
  unfold py_range. rewrite in_map_iff. split.
  - intros (k & <- & Hk). apply in_seq in Hk. lia.
  - intros H. exists (Z.to_nat i). split; [lia |]. apply in_seq. lia.
Qed.

Lemma py_range_NoDup (n : Z) : NoDup (py_range n).
Proof.
  unfold py_range. apply Injective_map_NoDup; [| apply seq_NoDup].
  intros a b H. lia.
Qed.

Section Labels.

Variable alphabet : string.
Hypothesis alphabet_NoDup : NoDup (chars alphabet).
Hypothesis alphabet_nonempty : 0 < len alphabet.

Lemma letter_in_range (m : Z) :
  0 <= m < len alphabet ->
  exists c, nth_error (chars alphabet) (Z.to_nat m) = Some c
            /\ letter alphabet m = String c EmptyString.
Proof.
  intros H. unfold letter. rewrite get_nth_error.
  destruct (nth_error (chars alphabet) (Z.to_nat m)) as [c |] eqn:E.
  - now exists c.
  - apply nth_error_None in E. rewrite chars_length in E. unfold len in H. lia.
Qed.

(** The label of [n] is the label of the quotient, if any, and one letter. *)
Lemma AlphaNameFromNumber_chars (n : Z) :
  exists c,
    nth_error (chars alphabet) (Z.to_nat ((n - 1) mod len alphabet)) = Some c
    /\ chars (AlphaNameFromNumber n alphabet)
       = (if 0 <? (n - 1) / len alphabet
          then chars (AlphaNameFromNumber ((n - 1) / len alphabet) alphabet)
          else [])
         ++ [c].
Proof.
  destruct (letter_in_range ((n - 1) mod len alphabet)) as (c & Hc & Hl).
  { apply Z.mod_pos_bound. exact alphabet_nonempty. }
  exists c. split; [exact Hc |].
  rewrite AlphaNameFromNumber_eq, Hl.
  destruct (0 <? (n - 1) / len alphabet); [now rewrite chars_append | reflexivity].
Qed.

Lemma AlphaNameFromNumber_letters :
  forall (k : nat) (n : Z),
    (Z.to_nat n <= k)%nat ->
    Forall (fun c => In c (chars alphabet)) (chars (AlphaNameFromNumber n alphabet)).
Proof.
  induction k as [| k IH]; intros n Hn;
    destruct (AlphaNameFromNumber_chars n) as (c & Hc & E); rewrite E;
    apply Forall_app; (split; [| repeat constructor; eapply nth_error_In; exact Hc]).
  - destruct (0 <? (n - 1) / len alphabet) eqn:D; [| constructor].
    apply Z.ltb_lt in D. assert (n <= 0) by lia.
    assert ((n - 1) / len alphabet < 0) by (apply Z.div_lt_upper_bound; lia). lia.
  - destruct (0 <? (n - 1) / len alphabet) eqn:D; [| constructor].
    apply Z.ltb_lt in D. apply IH.
    assert (0 <= n - 1).
    { destruct (Z_lt_dec (n - 1) 0); [| lia].
      assert ((n - 1) / len alphabet < 0) by (apply Z.div_lt_upper_bound; lia). lia. }
    assert ((n - 1) / len alphabet <= n - 1) by (apply Z.div_le_upper_bound; nia).
    lia.
Qed.

Lemma AlphaNameFromNumber_nonempty (n : Z) : chars (AlphaNameFromNumber n alphabet) <> [].
Proof.
  destruct (AlphaNameFromNumber_chars n) as (c & _ & E). rewrite E.
  intros H. apply app_eq_nil in H. destruct H as [_ H]. discriminate H.
Qed.

Lemma AlphaNameFromNumber_inj :
  forall (k : nat) (n n' : Z),
    (Z.to_nat n <= k)%nat -> 1 <= n -> 1 <= n' ->
    AlphaNameFromNumber n alphabet = AlphaNameFromNumber n' alphabet ->
    n = n'.
Proof.
  induction k as [| k IH]; intros n n' Hk Hn Hn' E; [lia |].
  apply (f_equal chars) in E.
  destruct (AlphaNameFromNumber_chars n) as (c & Hc & Ec).
  destruct (AlphaNameFromNumber_chars n') as (c' & Hc' & Ec').
  rewrite Ec, Ec' in E. apply app_inj_tail in E. destruct E as [Ep El].
  assert (Hm : (n - 1) mod len alphabet = (n' - 1) mod len alphabet).
  { subst c'. rewrite <- Hc' in Hc.
    pose proof (Z.mod_pos_bound (n - 1) (len alphabet) alphabet_nonempty).
    pose proof (Z.mod_pos_bound (n' - 1) (len alphabet) alphabet_nonempty).
    apply (proj1 (NoDup_nth_error (chars alphabet)) alphabet_NoDup) in Hc.
    - lia.
    - rewrite chars_length. unfold len in *. lia. }
  assert (Hd : (n - 1) / len alphabet = (n' - 1) / len alphabet).
  { pose proof (Z.div_pos (n - 1) (len alphabet)).
    pose proof (Z.div_pos (n' - 1) (len alphabet)).
    destruct (0 <? (n - 1) / len alphabet) eqn:D, (0 <? (n' - 1) / len alphabet) eqn:D'.
    - apply Z.ltb_lt in D. apply Z.ltb_lt in D'.
      apply (IH _ _); [| lia | lia | now apply chars_inj].
      assert ((n - 1) / len alphabet <= n - 1) by (apply Z.div_le_upper_bound; nia).
      lia.
    - exfalso. exact (AlphaNameFromNumber_nonempty _ Ep).
    - exfalso. symmetry in Ep. exact (AlphaNameFromNumber_nonempty _ Ep).
    - apply Z.ltb_ge in D. apply Z.ltb_ge in D'. lia. }
  pose proof (Z.div_mod (n - 1) (len alphabet)).
  pose proof (Z.div_mod (n' - 1) (len alphabet)).
  rewrite Hm, Hd in *. lia.
Qed.

End Labels.

(** ** Decimal numbers *)

Lemma str_int_inj (a b : Z) : str_int a = str_int b -> a = b.
Proof.
  unfold str_int. intros H.
  assert (P : forall z, NilZero.int_of_string (NilZero.string_of_int (Z.to_int z))
                        = Some (Z.to_int z)).
  { intros z. apply NilZero.isi; destruct z; cbn; try discriminate;
      intros [= E]; exact (DecimalPos.Unsigned.to_uint_nonnil _ E). }
  apply (f_equal NilZero.int_of_string) in H. rewrite !P in H.
  injection H as H. apply (f_equal Z.of_int) in H. now rewrite !DecimalZ.of_to in H.
Qed.

Lemma uint_digits (d : Decimal.uint) :
  Forall (fun c => In c (chars "0123456789")) (chars (NilEmpty.string_of_uint d)).
Proof.
  induction d; cbn; constructor; try exact IHd; cbn; tauto.
Qed.

Lemma str_int_digits (n : Z) :
  0 <= n ->
  str_int n <> EmptyString
  /\ Forall (fun c => In c (chars "0123456789")) (chars (str_int n)).
Proof.
  intros H. unfold str_int. destruct n as [| p | p]; [| | lia].
  - split; [discriminate | cbn; repeat constructor; cbn; tauto].
  - cbn. pose proof (DecimalPos.Unsigned.to_uint_nonnil p) as N. pose proof (uint_digits (Pos.to_uint p)) as D.
    destruct (Pos.to_uint p); try (split; [discriminate | exact D]).
    now contradiction N.
Qed.

(** No character of a decimal number, sign included, is a letter of the
    BGA alphabet. *)
Lemma str_int_no_letter (n : Z) :
  Forall (fun c => ~ In c (chars BGA_alphabet)) (chars (str_int n)).
Proof.
  assert (D : forall d, Forall (fun c => ~ In c (chars BGA_alphabet))
                               (chars (NilEmpty.string_of_uint d))).
  { induction d; cbn; constructor; try exact IHd;
      cbn; intuition discriminate. }
  assert (D0 : forall d, Forall (fun c => ~ In c (chars BGA_alphabet))
                                (chars (NilZero.string_of_uint d))).
  { intros d. destruct d; try apply D. cbn. repeat constructor. cbn. intuition discriminate. }
  unfold str_int. destruct (Z.to_int n); cbn [NilZero.string_of_int].
  - apply D0.
  - change (chars (String "-" (NilZero.string_of_uint d)))
      with ("-"%char :: chars (NilZero.string_of_uint d)).
    constructor; [cbn; intuition discriminate | apply D0].
Qed.

Lemma BGA_alphabet_NoDup : NoDup (chars BGA_alphabet).
Proof.
  change (chars BGA_alphabet) with (nodup ascii_dec (chars BGA_alphabet)).
  apply NoDup_nodup.
Qed.

Lemma BGA_alphabet_nonempty : 0 < len BGA_alphabet.
Proof. reflexivity. Qed.

(** A string splits in one way into a part made of letters and a part free
    of them. *)
Lemma split_unique (P : ascii -> Prop) :
  forall a1 a2 d1 d2 : list ascii,
    Forall P a1 -> Forall P a2 ->
    Forall (fun c => ~ P c) d1 -> Forall (fun c => ~ P c) d2 ->
    a1 ++ d1 = a2 ++ d2 -> a1 = a2 /\ d1 = d2.
Proof.
  induction a1 as [| x a1 IH]; intros [| y a2] d1 d2 Ha1 Ha2 Hd1 Hd2 E.
  - split; [reflexivity | exact E].
  - exfalso. cbn in E. subst d1.
    apply Forall_inv in Hd1. apply Forall_inv in Ha2. contradiction.
  - exfalso. cbn in E. subst d2.
    apply Forall_inv in Hd2. apply Forall_inv in Ha1. contradiction.
  - cbn in E. injection E as -> E.
    destruct (IH a2 d1 d2) as [-> ->]; auto;
      [eapply Forall_inv_tail; eassumption | eapply Forall_inv_tail; eassumption].
Qed.

Lemma NamingFunction_inj (x y x' y' : Z) :
  0 <= y -> 0 <= y' ->
  NamingFunction x y = NamingFunction x' y' -> x = x' /\ y = y'.
Proof.
  intros Hy Hy' E. unfold NamingFunction in E.
  apply (f_equal chars) in E. rewrite !chars_append in E.
  apply (split_unique (fun c => In c (chars BGA_alphabet))) in E.
  - destruct E as [El Ed].
    apply chars_inj in El. apply chars_inj in Ed.
    apply str_int_inj in Ed.
    apply (AlphaNameFromNumber_inj BGA_alphabet BGA_alphabet_NoDup BGA_alphabet_nonempty
             (Z.to_nat (y + 1))) in El; lia.
  - apply (AlphaNameFromNumber_letters BGA_alphabet BGA_alphabet_nonempty (Z.to_nat (y + 1))). lia.
  - apply (AlphaNameFromNumber_letters BGA_alphabet BGA_alphabet_nonempty (Z.to_nat (y' + 1))). lia.
  - apply str_int_no_letter.
  - apply str_int_no_letter.
Qed.

Lemma flat_map_NoDup (A B : Type) (f : A -> list B) (l : list A) :
  NoDup l ->
  (forall x, In x l -> NoDup (f x)) ->
  (forall x x' b, In x l -> In x' l -> In b (f x) -> In b (f x') -> x = x') ->
  NoDup (flat_map f l).
Proof.
  induction l as [| x l IH]; intros Hl Hf Hd; [constructor |].
  cbn. apply NoDup_cons_iff in Hl. destruct Hl as [Hx Hl].
  apply NoDup_app.
  - apply Hf. now left.
  - apply IH; [exact Hl | intros; apply Hf; now right |].
    intros x1 x2 b H1 H2. apply Hd; now right.
  - intros b Hb Hb'. apply in_flat_map in Hb'. destruct Hb' as (x' & Hx' & Hb').
    assert (x = x') by (apply (Hd x x' b); [now left | now right | assumption | assumption]).
    subst x'. contradiction.
Qed.

Lemma array_pad_names (a : PadGridArray) :
  map pp_name (array_pads a)
  = flat_map (fun x => map (fun y => NamingFunction x y) (py_range (pga_ny a)))
             (py_range (pga_nx a)).
Proof.
  unfold array_pads. generalize (py_range (pga_nx a)) as l.
  induction l as [| x l IH]; [reflexivity |].
  cbn [flat_map]. rewrite map_app, IH, map_map. reflexivity.
Qed.

Lemma array_pad_names_NoDup (a : PadGridArray) : NoDup (map pp_name (array_pads a)).
Proof.
  rewrite array_pad_names. apply flat_map_NoDup.
  - apply py_range_NoDup.
  - intros x _. apply Injective_map_NoDup_in; [| apply py_range_NoDup].
    intros y y' Hy Hy' E. apply py_range_In in Hy. apply py_range_In in Hy'.
    apply NamingFunction_inj in E; [tauto | lia | lia].
  - intros x x' b _ _ Hb Hb'.
    apply in_map_iff in Hb. destruct Hb as (y & <- & Hy).
    apply in_map_iff in Hb'. destruct Hb' as (y' & E & Hy').
    apply py_range_In in Hy. apply py_range_In in Hy'.
    apply NamingFunction_inj in E; [symmetry; tauto | lia | lia].
Qed.

(** ** Numbers of labels *)

Lemma index_of_nth (l : list ascii) :
  NoDup l -> forall (k : nat) (c : ascii), nth_error l k = Some c -> index_of c l = Some k.
Proof.
  induction l as [| x l IH]; intros Hl k c Hk; [destruct k; discriminate Hk |].
  apply NoDup_cons_iff in Hl. destruct Hl as [Hx Hl].
  destruct k as [| k]; cbn in Hk |- *.
  - injection Hk as ->. now rewrite Ascii.eqb_refl.
  - destruct (Ascii.eqb_spec c x) as [-> | _].
    + exfalso. apply Hx. eapply nth_error_In. exact Hk.
    + now rewrite (IH Hl k c Hk).
Qed.

Section LabelNumbers.

Variable alphabet : string.
Hypothesis alphabet_NoDup : NoDup (chars alphabet).
Hypothesis alphabet_nonempty : 0 < len alphabet.

(** Reading the label of [n] gives [n] back. *)
Lemma label_number_AlphaNameFromNumber :
  forall (k : nat) (n : Z),
    (Z.to_nat n <= k)%nat -> 1 <= n ->
    label_number alphabet (AlphaNameFromNumber n alphabet) = Some n.
Proof.
  induction k as [| k IH]; intros n Hk Hn; [lia |].
  destruct (AlphaNameFromNumber_chars alphabet alphabet_nonempty n) as (c & Hc & E).
  unfold label_number, label_value. rewrite E, fold_left_app. cbn [fold_left].
  rewrite (index_of_nth _ alphabet_NoDup _ _ Hc).
  pose proof (Z.mod_pos_bound (n - 1) (len alphabet) alphabet_nonempty) as Hm.
  pose proof (Z.div_mod (n - 1) (len alphabet)) as Hd.
  destruct (0 <? (n - 1) / len alphabet) eqn:D.
  - apply Z.ltb_lt in D.
    assert ((n - 1) / len alphabet <= n - 1) by (apply Z.div_le_upper_bound; nia).
    change (fold_left _ (chars (AlphaNameFromNumber ((n - 1) / len alphabet) alphabet)) (Some 0))
      with (label_number alphabet (AlphaNameFromNumber ((n - 1) / len alphabet) alphabet)).
    rewrite IH by lia. f_equal. rewrite Z2Nat.id by lia. lia.
  - apply Z.ltb_ge in D. cbn [fold_left].
    pose proof (Z.div_pos (n - 1) (len alphabet)).
    f_equal. rewrite Z2Nat.id by lia. nia.
Qed.

End LabelNumbers.

Lemma index_of_Some (l : list ascii) :
  forall (c : ascii) (i : nat),
    index_of c l = Some i -> nth_error l i = Some c /\ (i < List.length l)%nat.
Proof.
  induction l as [| x l IH]; intros c i H; [discriminate H |].
  cbn in H. destruct (Ascii.eqb_spec c x) as [-> | _].
  - injection H as <-. split; [reflexivity | cbn; lia].
  - destruct (index_of c l) as [j |] eqn:E; [| discriminate H].
    injection H as <-. destruct (IH c j E) as [H1 H2]. split; [exact H1 | cbn; lia].
Qed.

Section LabelUnique.

Variable alphabet : string.

Lemma label_value_snoc (l : list ascii) (c : ascii) (v : Z) :
  label_value alphabet (l ++ [c]) = Some v ->
  exists (u : Z) (i : nat),
    label_value alphabet l = Some u /\ index_of c (chars alphabet) = Some i
    /\ v = u * len alphabet + Z.of_nat i + 1.
Proof.
  unfold label_value. rewrite fold_left_app. cbn [fold_left].
  destruct (fold_left _ l (Some 0)) as [u |]; [| discriminate].
  destruct (index_of c (chars alphabet)) as [i |]; [| discriminate].
  intros [= <-]. now exists u, i.
Qed.

Lemma label_value_nonneg (l : list ascii) : forall v, label_value alphabet l = Some v -> 0 <= v.
Proof.
  induction l as [| c l IH] using rev_ind; intros v H.
  - injection H as <-. lia.
  - apply label_value_snoc in H. destruct H as (u & i & Hu & _ & ->).
    specialize (IH u Hu). unfold len. nia.
Qed.

Lemma label_value_inj (l : list ascii) :
  forall (l' : list ascii) (v : Z), label_value alphabet l = Some v -> label_value alphabet l' = Some v -> l = l'.
Proof.
  induction l as [| c l IH] using rev_ind; intros l' v H H'.
  - injection H as <-.
    destruct l' as [| c' l'] using rev_ind; [reflexivity |].
    apply label_value_snoc in H'. destruct H' as (u & i & Hu & _ & E).
    apply label_value_nonneg in Hu. unfold len in E. nia.
  - destruct l' as [| c' l' _] using rev_ind.
    + injection H' as <-. apply label_value_snoc in H. destruct H as (u & i & Hu & _ & E).
      apply label_value_nonneg in Hu. unfold len in E. nia.
    + apply label_value_snoc in H. destruct H as (u & i & Hu & Hi & E).
      apply label_value_snoc in H'. destruct H' as (u' & i' & Hu' & Hi' & E').
      apply index_of_Some in Hi. apply index_of_Some in Hi'.
      destruct Hi as [Hc Hi]. destruct Hi' as [Hc' Hi'].
      rewrite chars_length in Hi, Hi'.
      pose proof (label_value_nonneg _ _ Hu). pose proof (label_value_nonneg _ _ Hu').
      assert (u = u' /\ i = i') as [-> ->].
      { unfold len in *. subst v.
        destruct (Z.div_mod_unique (Z.of_nat (String.length alphabet))
                    u u' (Z.of_nat i) (Z.of_nat i')) as [Eu Ei]; [lia | lia | lia |].
        split; [exact Eu | lia]. }
      rewrite Hc in Hc'. injection Hc' as ->.
      f_equal. eapply IH; eassumption.
Qed.

End LabelUnique.

Lemma label_number_inj (alphabet s t : string) (v : Z) :
  label_number alphabet s = Some v -> label_number alphabet t = Some v -> s = t.
Proof.
  intros H H'. apply chars_inj. eapply label_value_inj; eassumption.
Qed.

Lemma str_int_parses (n : Z) :
  option_map Z.of_int (NilZero.int_of_string (str_int n)) = Some n.
Proof.
  unfold str_int. rewrite NilZero.isi.
  - cbn. now rewrite DecimalZ.of_to.
  - destruct n; cbn; try discriminate; intros [= E];
      exact (DecimalPos.Unsigned.to_uint_nonnil _ E).
  - destruct n; cbn; try discriminate; intros [= E];
      exact (DecimalPos.Unsigned.to_uint_nonnil _ E).
Qed.

(** ** The name of a pad (C4) *)

(** C4: at every zero-based grid position [(n_x, n_y)] [NamingFunction]
    returns the alphabetic label of [n_y + 1] over the 20-letter alphabet
    ABCDEFGHJKLMNPRTUVWY, which is the Latin alphabet without I, O, Q, S, X
    and Z, followed by the decimal number [n_x + 1]; the pad at (0, 0) is
    named A1. *)
Theorem NamingFunction_row_label_column_number :
  forall n_x n_y : Z,
    0 <= n_x -> 0 <= n_y ->
    row_label_then_column_number n_x n_y
    /\ String.length BGA_alphabet = 20%nat
    /\ filter (fun c => negb (existsb (Ascii.eqb c) (list_ascii_of_string "IOQSXZ")))
              (list_ascii_of_string "ABCDEFGHIJKLMNOPQRSTUVWXYZ")
       = list_ascii_of_string BGA_alphabet
    /\ NamingFunction 0 0 = "A1"%string.
Proof.
  intros n_x n_y Hx Hy.
  split; [| split; [reflexivity | split; [reflexivity |]]].
  - destruct (AlphaNameFromNumber_chars BGA_alphabet BGA_alphabet_nonempty (n_y + 1))
      as (c & Hc & E).
    replace (n_y + 1 - 1) with n_y in Hc, E by lia.
    change (len BGA_alphabet) with 20 in Hc, E.
    exists (AlphaNameFromNumber (n_y + 1) BGA_alphabet), (str_int (n_x + 1)), c.
    split; [reflexivity |].
    split; [reflexivity |].
    split; [reflexivity |].
    split.
    { apply (label_number_AlphaNameFromNumber BGA_alphabet BGA_alphabet_NoDup
               BGA_alphabet_nonempty (Z.to_nat (n_y + 1))); lia. }
    split.
    { intros other Ho. eapply label_number_inj; [exact Ho |].
      apply (label_number_AlphaNameFromNumber BGA_alphabet BGA_alphabet_NoDup
               BGA_alphabet_nonempty (Z.to_nat (n_y + 1))); lia. }
    split; [exact Hc |].
    split.
    { exists (string_of_list_ascii
                (if 0 <? n_y / 20
                 then chars (AlphaNameFromNumber (n_y / 20) BGA_alphabet) else [])).
      apply chars_inj. rewrite chars_append, E. unfold chars at 3.
      now rewrite list_ascii_of_string_of_list_ascii. }
    split.
    { intros Hlt. apply chars_inj. rewrite E.
      rewrite Z.div_small by lia. reflexivity. }
    split; [apply str_int_parses |].
    apply str_int_digits. lia.
  - unfold NamingFunction.
    rewrite (AlphaNameFromNumber_one_letter (0 + 1) BGA_alphabet) by (cbn; lia).
    reflexivity.
Qed.

(** Column 11 of row 20, the first row with a label of two letters: AA12. *)
Lemma NamingFunction_row_label_column_number_witness :
  row_label_then_column_number 11 20
  /\ String.length BGA_alphabet = 20%nat
  /\ filter (fun c => negb (existsb (Ascii.eqb c) (list_ascii_of_string "IOQSXZ")))
            (list_ascii_of_string "ABCDEFGHIJKLMNOPQRSTUVWXYZ")
     = list_ascii_of_string BGA_alphabet
  /\ NamingFunction 0 0 = "A1"%string.
Proof.
  apply NamingFunction_row_label_column_number; lia.
Defined.

Example label_numbers :
  label_number BGA_alphabet "A" = Some 1 /\ label_number BGA_alphabet "Y" = Some 20
  /\ label_number BGA_alphabet "AA" = Some 21 /\ label_number BGA_alphabet "AB" = Some 22
  /\ label_number BGA_alphabet "I" = None.
Proof. repeat split. Qed.

(** * Further properties *)

Lemma footprint_pads_array (w : Wizard) :
  footprint_pads w = array_pads (footprint_array (parameters w)).
Proof.
  change (footprint_pads w) with (array_pads (footprint_array (parameters w)) ++ []).
  apply app_nil_r.
Qed.

Lemma footprint_array_issued (w : Wizard) :
  filter is_pad_array (issued BuildThisFootprint w)
  = [AddPadsToModule (footprint_array (parameters w))].
Proof. reflexivity. Qed.

Lemma array_pads_In (a : PadGridArray) (pad : PlacedPad) :
  In pad (array_pads a) <->
  exists x y, 0 <= x < pga_nx a /\ 0 <= y < pga_ny a
              /\ pad = mkPlacedPad (NamingFunction x y) (pad_position a x y) (pga_pad a).
Proof.
  unfold array_pads. rewrite in_flat_map. split.
  - intros (x & Hx & H). apply in_map_iff in H. destruct H as (y & <- & Hy).
    apply py_range_In in Hx. apply py_range_In in Hy. now exists x, y.
  - intros (x & y & Hx & Hy & ->). exists x. split; [now apply py_range_In |].
    apply in_map_iff. exists y. split; [reflexivity | now apply py_range_In].
Qed.

(** X1: the pads a run adds have pairwise distinct names. *)
Theorem pad_names_distinct :
  forall w : Wizard, NoDup (map pp_name (footprint_pads w)).
Proof.
  intros w. rewrite footprint_pads_array. apply array_pad_names_NoDup.
Qed.

(** X2: the name of every pad a run adds is one or more letters of the BGA
    alphabet followed by one or more decimal digits. *)
Theorem pad_names_letters_then_digits :
  forall (w : Wizard) (pad : PlacedPad),
    In pad (footprint_pads w) ->
    letters_then_digits BGA_alphabet (pp_name pad).
Proof.
  intros w pad H. rewrite footprint_pads_array in H.
  apply array_pads_In in H. destruct H as (x & y & Hx & Hy & ->). cbn [pp_name].
  exists (AlphaNameFromNumber (y + 1) BGA_alphabet), (str_int (x + 1)).
  destruct (str_int_digits (x + 1)) as [Hne Hd]; [lia |].
  split; [reflexivity |].
  split.
  { intros E. apply (AlphaNameFromNumber_nonempty BGA_alphabet BGA_alphabet_nonempty (y + 1)).
    now rewrite E. }
  split; [exact Hne |].
  split; [| exact Hd].
  apply (AlphaNameFromNumber_letters BGA_alphabet BGA_alphabet_nonempty (Z.to_nat (y + 1))). lia.
Qed.

Lemma pad_names_letters_then_digits_witness :
  letters_then_digits BGA_alphabet "C4".
Proof.
  apply (pad_names_letters_then_digits (fresh_wizard default_parameters)
           (mkPlacedPad "C4" ((2000000 # 2)%Q, (0 # 2)%Q) (SMTRoundPad 500000))).
  rewrite footprint_pads_array. apply array_pads_In.
  exists 3, 2. repeat split; cbn; lia.
Defined.

(** ** The pin-1 marker *)

Lemma pin1_marker_staircase (ssx ssy len_x len_y : Q) (offset bevel : Z) :
  (0 <= inject_Z bevel)%Q ->
  staircase (pin1_marker ssx ssy len_x len_y offset bevel).
Proof.
  intros H. unfold pin1_marker, pin1_vertices.
  destruct (Qltb len_x (inject_Z bevel)) eqn:Ex;
    destruct (Qltb len_y (inject_Z bevel)) eqn:Ey;
    try (apply Qltb_ge in Ex); try (apply Qltb_ge in Ey);
    revert H Ex Ey; generalize (inject_Z bevel) (inject_Z offset); intros b o H Ex Ey;
    cbn [tl removelast staircase fst snd]; repeat split; lra.
Qed.

Lemma pin1_marker_length (ssx ssy len_x len_y : Q) (offset bevel : Z) :
  List.length (pin1_marker ssx ssy len_x len_y offset bevel)
  = ((if Qltb len_x (inject_Z bevel) then 0 else 1)
     + 2 + (if Qltb len_y (inject_Z bevel) then 0 else 1))%nat.
Proof.
  unfold pin1_marker, pin1_vertices.
  destruct (Qltb len_x (inject_Z bevel)), (Qltb len_y (inject_Z bevel)); reflexivity.
Qed.

Lemma quarter_lt (v b : Z) :
  Qltb ((1 # 2) * (inject_Z v / 2)) (inject_Z b) = true <-> v < 4 * b.
Proof.
  rewrite Qltb_lt. unfold Qlt. cbn -[Z.mul]. lia.
Qed.

Lemma fab_bevel_le (bevel : Z) : fab_bevel bevel <= 1000000 /\ fab_bevel bevel <= bevel.
Proof. rewrite fab_bevel_min, FromMM_1. lia. Qed.

(** X3: for a bevel of -0.15 mm or more, the pin-1 marker runs leftwards and
    downwards without ever turning back, whichever of its end vertices lines
    143-148 have dropped. *)
Theorem pin1_marker_is_staircase :
  forall w : Wizard,
    -150000 <= SilkS.bevel (pSilkS (parameters w)) ->
    exists pin1 : list Point,
      nth_error (on_layer F_SilkS (footprint_graphics w)) 3
      = Some (Polyline pin1 None None)
      /\ staircase pin1.
Proof.
  intros w H. eexists. split; [reflexivity |].
  apply pin1_marker_staircase.
  change (fst (fst (self_parameters w))) with (parameters w).
  change 0%Q with (inject_Z 0). rewrite <- Zle_Qle.
  rewrite fab_bevel_min, FromMM_1. change (FromMM (15 # 100)) with 150000. lia.
Qed.

Lemma pin1_marker_is_staircase_witness :
  exists pin1 : list Point,
    nth_error (on_layer F_SilkS (footprint_graphics (fresh_wizard default_parameters))) 3
    = Some (Polyline pin1 None None)
    /\ staircase pin1.
Proof.
  apply pin1_marker_is_staircase. cbn. lia.
Defined.

Lemma quarter_ltb (v b : Z) :
  Qltb ((1 # 2) * (inject_Z v / 2)) (inject_Z b) = (v <? 4 * b).
Proof.
  destruct (Z.ltb_spec v (4 * b)) as [H | H].
  - now apply quarter_lt.
  - destruct (Qltb _ _) eqn:E; [apply quarter_lt in E; lia | reflexivity].
Qed.

Lemma pin1_marker_issued (w : Wizard) :
  let p := parameters w in
  let ssx := (inject_Z (Package.width (pPackage p)) / 2)%Q in
  let ssy := (inject_Z (Package.length (pPackage p)) / 2)%Q in
  nth_error (on_layer F_SilkS (footprint_graphics w)) 3
  = Some (Polyline
            (pin1_marker ssx ssy ((1 # 2) * ssx) ((1 # 2) * ssy) (FromMM (15 # 100))
                         (fab_bevel (SilkS.bevel (pSilkS p)) + FromMM (15 # 100)))
            None None).
Proof. reflexivity. Qed.

(** X4: on a package of at least 4.6 mm by 4.6 mm the pin-1 marker keeps its
    four vertices, whatever the bevel. *)
Theorem pin1_marker_complete_from_4_6_mm :
  forall w : Wizard,
    4600000 <= Package.width (pPackage (parameters w)) ->
    4600000 <= Package.length (pPackage (parameters w)) ->
    exists pin1 : list Point,
      nth_error (on_layer F_SilkS (footprint_graphics w)) 3
      = Some (Polyline pin1 None None)
      /\ List.length pin1 = 4%nat.
Proof.
  intros w Hw Hl. eexists. split; [apply pin1_marker_issued |].
  cbv zeta. rewrite pin1_marker_length, !quarter_ltb.
  pose proof (fab_bevel_le (SilkS.bevel (pSilkS (parameters w)))) as [B _].
  change (FromMM (15 # 100)) with 150000.
  destruct (Z.ltb_spec (Package.width (pPackage (parameters w)))
                       (4 * (fab_bevel (SilkS.bevel (pSilkS (parameters w))) + 150000)));
    [lia |].
  destruct (Z.ltb_spec (Package.length (pPackage (parameters w)))
                       (4 * (fab_bevel (SilkS.bevel (pSilkS (parameters w))) + 150000)));
    [lia | reflexivity].
Qed.

Lemma pin1_marker_complete_from_4_6_mm_witness :
  exists pin1 : list Point,
    nth_error (on_layer F_SilkS (footprint_graphics (fresh_wizard default_parameters))) 3
    = Some (Polyline pin1 None None)
    /\ List.length pin1 = 4%nat.
Proof.
  apply pin1_marker_complete_from_4_6_mm; cbn; lia.
Defined.

(** X5: with a bevel of 1 mm or more the pin-1 marker keeps its four vertices
    exactly when both sides of the package are at least 4.6 mm, and is
    reduced to the diagonal exactly when both are shorter. *)
Theorem pin1_marker_complete_iff :
  forall w : Wizard,
    1000000 <= SilkS.bevel (pSilkS (parameters w)) ->
    exists pin1 : list Point,
      nth_error (on_layer F_SilkS (footprint_graphics w)) 3
      = Some (Polyline pin1 None None)
      /\ (List.length pin1 = 4%nat
          <-> 4600000 <= Package.width (pPackage (parameters w))
              /\ 4600000 <= Package.length (pPackage (parameters w)))
      /\ (List.length pin1 = 2%nat
          <-> Package.width (pPackage (parameters w)) < 4600000
              /\ Package.length (pPackage (parameters w)) < 4600000).
Proof.
  intros w Hb. eexists. split; [apply pin1_marker_issued |].
  cbv zeta. rewrite pin1_marker_length, !quarter_ltb.
  assert (B : fab_bevel (SilkS.bevel (pSilkS (parameters w))) = 1000000).
  { rewrite fab_bevel_min, FromMM_1. lia. }
  rewrite B. change (FromMM (15 # 100)) with 150000.
  destruct (Z.ltb_spec (Package.width (pPackage (parameters w))) (4 * (1000000 + 150000)));
    destruct (Z.ltb_spec (Package.length (pPackage (parameters w))) (4 * (1000000 + 150000)));
    cbn [Nat.add]; split; split; intros K; try discriminate K; lia.
Qed.

Lemma pin1_marker_complete_iff_witness :
  exists pin1 : list Point,
    nth_error (on_layer F_SilkS (footprint_graphics (fresh_wizard default_parameters))) 3
    = Some (Polyline pin1 None None)
    /\ (List.length pin1 = 4%nat <-> 4600000 <= 6000000 /\ 4600000 <= 6000000)
    /\ (List.length pin1 = 2%nat <-> 6000000 < 4600000 /\ 6000000 < 4600000).
Proof.
  apply (pin1_marker_complete_iff (fresh_wizard default_parameters)). cbn. lia.
Defined.

(** ** Silkscreen and courtyard *)

Lemma silkscreen_issued (w : Wizard) :
  let p := parameters w in
  let ssx := (inject_Z (Package.width (pPackage p)) / 2)%Q in
  let ssy := (inject_Z (Package.length (pPackage p)) / 2)%Q in
  let offset := FromMM (15 # 100) in
  let edge := edge_vertices ssx ssy ((1 # 2) * ssx) ((1 # 2) * ssy) offset in
  on_layer F_SilkS (footprint_graphics w)
  = [ Polyline edge None None;
      Polyline edge None (Some 0%Q);
      Polyline edge (Some 0%Q) (Some 0%Q);
      Polyline (pin1_marker ssx ssy ((1 # 2) * ssx) ((1 # 2) * ssy) offset
                            (fab_bevel (SilkS.bevel (pSilkS p)) + offset))
               None None;
      Circle (- ssx) (- ssy) (inject_Z (FromMM (2 # 10))) true ].
Proof. reflexivity. Qed.

Lemma courtyard_issued (w : Wizard) :
  let p := parameters w in
  let ssx := (inject_Z (Package.width (pPackage p)) / 2)%Q in
  let ssy := (inject_Z (Package.length (pPackage p)) / 2)%Q in
  let cmargin := Package.margin (pPackage p) in
  on_layer F_CrtYd (footprint_graphics w)
  = [ Box 0 0 (PutOnGridMM ((ssx + inject_Z cmargin) * 2) (1 # 10))
              (PutOnGridMM ((ssy + inject_Z cmargin) * 2) (1 # 10)) ].
Proof. reflexivity. Qed.

(** The courtyard side is at most 0.05 mm short of value + 2 margin. *)
Lemma courtyard_side_ge (v m : Z) :
  (inject_Z v + 2 * inject_Z m - 50000
   <= PutOnGridMM ((inject_Z v / 2 + inject_Z m) * 2) (1 # 10))%Q.
Proof.
  destruct (PutOnGridMM_tenth (v + 2 * m) _ (courtyard_size v m)) as [_ [H _]].
  rewrite inject_Z_plus, inject_Z_mult in H. exact H.
Qed.

Lemma Qabs_le_iff (x y : Q) : (Qabs x <= y)%Q <-> (- y <= x <= y)%Q.
Proof. apply Qabs_Qle_condition. Qed.

Lemma edge_inside (ssx ssy S T : Q) (offset : Z) (v : Point) :
  (0 <= ssx)%Q -> (0 <= ssy)%Q -> (0 <= inject_Z offset)%Q ->
  (ssx + inject_Z offset <= S)%Q -> (ssy + inject_Z offset <= T)%Q ->
  In v (edge_vertices ssx ssy ((1 # 2) * ssx) ((1 # 2) * ssy) offset) ->
  (Qabs (fst v) <= S)%Q /\ (Qabs (snd v) <= T)%Q.
Proof.
  unfold edge_vertices. generalize (inject_Z offset). intros o Hx Hy Ho HS HT Hv.
  rewrite !Qabs_le_iff.
  destruct Hv as [<- | [<- | [<- | []]]]; cbn [fst snd]; repeat split; lra.
Qed.

Lemma pin1_inside (ssx ssy S T : Q) (offset bevel : Z) (v : Point) :
  (0 <= ssx)%Q -> (0 <= ssy)%Q -> (0 <= inject_Z offset)%Q ->
  (0 <= inject_Z bevel)%Q ->
  (inject_Z bevel <= 2 * ssx)%Q -> (inject_Z bevel <= 2 * ssy)%Q ->
  (ssx + inject_Z offset <= S)%Q -> (ssy + inject_Z offset <= T)%Q ->
  In v (pin1_marker ssx ssy ((1 # 2) * ssx) ((1 # 2) * ssy) offset (bevel + offset)) ->
  (Qabs (fst v) <= S)%Q /\ (Qabs (snd v) <= T)%Q.
Proof.
  intros Hx Hy Ho Hb Hbx Hby HS HT Hv.
  assert (Hin : In v (pin1_vertices ssx ssy ((1 # 2) * ssx) ((1 # 2) * ssy)
                                    offset (bevel + offset))).
  { unfold pin1_marker in Hv.
    destruct (Qltb _ _) in Hv; destruct (Qltb _ _) in Hv;
      cbn [pin1_vertices tl removelast In] in Hv |- *; tauto. }
  clear Hv. unfold pin1_vertices in Hin. rewrite inject_Z_plus in Hin.
  revert Ho Hb Hbx Hby HS HT Hin.
  generalize (inject_Z offset) (inject_Z bevel). intros o b Ho Hb Hbx Hby HS HT Hin.
  rewrite !Qabs_le_iff.
  destruct Hin as [<- | [<- | [<- | [<- | []]]]]; cbn [fst snd]; repeat split; lra.
Qed.

(** X6: when the bevel is not negative and does not exceed the package
    sides, and the margin is at least 0.2 mm, every vertex of the four
    silkscreen polylines lies in the courtyard box; the box is symmetric
    about both axes, so their mirror images do too. *)
Theorem silkscreen_inside_courtyard :
  forall w : Wizard,
    0 <= SilkS.bevel (pSilkS (parameters w)) ->
    Z.min (SilkS.bevel (pSilkS (parameters w))) 1000000
    <= Package.width (pPackage (parameters w)) ->
    Z.min (SilkS.bevel (pSilkS (parameters w))) 1000000
    <= Package.length (pPackage (parameters w)) ->
    200000 <= Package.margin (pPackage (parameters w)) ->
    exists sizex sizey : Q,
      on_layer F_CrtYd (footprint_graphics w) = [Box 0 0 sizex sizey]
      /\ forall (pts : list Point) (mirrorX mirrorY : option Q) (v : Point),
           In (Polyline pts mirrorX mirrorY) (on_layer F_SilkS (footprint_graphics w)) ->
           In v pts -> inside_box sizex sizey v.
Proof.
  intros w Hb Hbw Hbl Hm.
  do 2 eexists. split; [apply courtyard_issued |].
  cbv zeta. intros pts mX mY v Hp Hv. rewrite silkscreen_issued in Hp. cbv zeta in Hp.
  set (width := Package.width (pPackage (parameters w))) in *.
  set (length := Package.length (pPackage (parameters w))) in *.
  set (cmargin := Package.margin (pPackage (parameters w))) in *.
  set (bevel := SilkS.bevel (pSilkS (parameters w))) in *.
  pose proof (courtyard_side_ge width cmargin) as Sx.
  pose proof (courtyard_side_ge length cmargin) as Sy.
  set (sizex := PutOnGridMM ((inject_Z width / 2 + inject_Z cmargin) * 2) (1 # 10)) in *.
  set (sizey := PutOnGridMM ((inject_Z length / 2 + inject_Z cmargin) * 2) (1 # 10)) in *.
  assert (Bmin : fab_bevel bevel = Z.min bevel 1000000)
    by (rewrite fab_bevel_min, FromMM_1; reflexivity).
  assert (Qm : (inject_Z 200000 <= inject_Z cmargin)%Q) by (rewrite <- Zle_Qle; lia).
  assert (Qb : (inject_Z 0 <= inject_Z (fab_bevel bevel))%Q) by (rewrite <- Zle_Qle; lia).
  assert (Qbw : (inject_Z (fab_bevel bevel) <= inject_Z width)%Q) by (rewrite <- Zle_Qle; lia).
  assert (Qbl : (inject_Z (fab_bevel bevel) <= inject_Z length)%Q) by (rewrite <- Zle_Qle; lia).
  change (inject_Z 200000) with (200000 # 1)%Q in Qm. change (inject_Z 0) with 0%Q in Qb.
  assert (Dx : (inject_Z width / 2 == inject_Z width * (1 # 2))%Q) by field.
  assert (Dy : (inject_Z length / 2 == inject_Z length * (1 # 2))%Q) by field.
  assert (Ex : (sizex / 2 == sizex * (1 # 2))%Q) by field.
  assert (Ey : (sizey / 2 == sizey * (1 # 2))%Q) by field.
  assert (Ho : (0 <= inject_Z (FromMM (15 # 100)))%Q) by (vm_compute; discriminate).
  assert (Oo : (inject_Z (FromMM (15 # 100)) == 150000)%Q) by reflexivity.
  unfold inside_box.
  assert (Px : (0 <= inject_Z width / 2)%Q) by (rewrite Dx; lra).
  assert (Py : (0 <= inject_Z length / 2)%Q) by (rewrite Dy; lra).
  assert (HS : (inject_Z width / 2 + inject_Z (FromMM (15 # 100)) <= sizex / 2)%Q)
    by (rewrite Dx, Ex, Oo; lra).
  assert (HT : (inject_Z length / 2 + inject_Z (FromMM (15 # 100)) <= sizey / 2)%Q)
    by (rewrite Dy, Ey, Oo; lra).
  destruct Hp as [Hp | [Hp | [Hp | [Hp | [Hp | []]]]]]; try discriminate Hp;
    injection Hp as <- _ _.
  1-3: apply (edge_inside (inject_Z width / 2) (inject_Z length / 2)
                          (sizex / 2) (sizey / 2) (FromMM (15 # 100))); assumption.
  apply (pin1_inside (inject_Z width / 2) (inject_Z length / 2)
                     (sizex / 2) (sizey / 2) (FromMM (15 # 100)) (fab_bevel bevel));
    try assumption.
  - rewrite Dx. lra.
  - rewrite Dy. lra.
Qed.

Lemma silkscreen_inside_courtyard_witness :
  exists sizex sizey : Q,
    on_layer F_CrtYd (footprint_graphics (fresh_wizard default_parameters))
    = [Box 0 0 sizex sizey]
    /\ forall (pts : list Point) (mirrorX mirrorY : option Q) (v : Point),
         In (Polyline pts mirrorX mirrorY)
            (on_layer F_SilkS (footprint_graphics (fresh_wizard default_parameters))) ->
         In v pts -> inside_box sizex sizey v.
Proof.
  apply silkscreen_inside_courtyard; cbn; lia.
Defined.

(** X7: with a margin of at least 0.225 mm the pin-1 dot, radius included,
    lies in the courtyard box. *)
Theorem pin1_dot_inside_courtyard :
  forall w : Wizard,
    0 <= Package.width (pPackage (parameters w)) ->
    0 <= Package.length (pPackage (parameters w)) ->
    225000 <= Package.margin (pPackage (parameters w)) ->
    exists sizex sizey x y r : Q,
      on_layer F_CrtYd (footprint_graphics w) = [Box 0 0 sizex sizey]
      /\ nth_error (on_layer F_SilkS (footprint_graphics w)) 4 = Some (Circle x y r true)
      /\ (Qabs x + r <= sizex / 2)%Q /\ (Qabs y + r <= sizey / 2)%Q.
Proof.
  intros w Hw Hl Hm.
  do 5 eexists. split; [apply courtyard_issued |]. split; [reflexivity |].
  set (width := Package.width (pPackage (parameters w))) in *.
  set (length := Package.length (pPackage (parameters w))) in *.
  set (cmargin := Package.margin (pPackage (parameters w))) in *.
  pose proof (courtyard_side_ge width cmargin) as Sx.
  pose proof (courtyard_side_ge length cmargin) as Sy.
  cbv zeta.
  change (parameters w) with (fst (fst (self_parameters w))) in *.
  fold width. fold length. fold cmargin.
  set (sizex := PutOnGridMM ((inject_Z width / 2 + inject_Z cmargin) * 2) (1 # 10)) in *.
  set (sizey := PutOnGridMM ((inject_Z length / 2 + inject_Z cmargin) * 2) (1 # 10)) in *.
  assert (Qm : (inject_Z 225000 <= inject_Z cmargin)%Q) by (rewrite <- Zle_Qle; lia).
  assert (Qw : (inject_Z 0 <= inject_Z width)%Q) by (rewrite <- Zle_Qle; lia).
  assert (Ql : (inject_Z 0 <= inject_Z length)%Q) by (rewrite <- Zle_Qle; lia).
  change (inject_Z 225000) with (225000 # 1)%Q in Qm. change (inject_Z 0) with 0%Q in Qw, Ql.
  assert (Dx : (inject_Z width / 2 == inject_Z width * (1 # 2))%Q) by field.
  assert (Dy : (inject_Z length / 2 == inject_Z length * (1 # 2))%Q) by field.
  assert (Ex : (sizex / 2 == sizex * (1 # 2))%Q) by field.
  assert (Ey : (sizey / 2 == sizey * (1 # 2))%Q) by field.
  change (inject_Z (FromMM (2 # 10))) with (200000 # 1)%Q.
  rewrite !Qabs_opp.
  rewrite (Qabs_pos (inject_Z width / 2)) by (rewrite Dx; lra).
  rewrite (Qabs_pos (inject_Z length / 2)) by (rewrite Dy; lra).
  rewrite Dx, Dy, Ex, Ey. split; lra.
Qed.

Lemma pin1_dot_inside_courtyard_witness :
  exists sizex sizey x y r : Q,
    on_layer F_CrtYd (footprint_graphics (fresh_wizard default_parameters))
    = [Box 0 0 sizex sizey]
    /\ nth_error (on_layer F_SilkS (footprint_graphics (fresh_wizard default_parameters))) 4
       = Some (Circle x y r true)
    /\ (Qabs x + r <= sizex / 2)%Q /\ (Qabs y + r <= sizey / 2)%Q.
Proof.
  apply pin1_dot_inside_courtyard; cbn; lia.
Defined.

(** ** The drawing context *)

Lemma FromMM_of_IU (v : Z) : FromMM (inject_Z v) = v * 1000000.
Proof.
  unfold FromMM, py_int, IU_PER_MM. cbn [Qnum Qden Qmult inject_Z].
  change (Z.pos (1 * 1)) with 1. now rewrite Z.quot_1_r.
Qed.

(** X8: a run leaves the drawing context on F_CrtYd with a line thickness of
    margin * 10^6 IU: line 169 applies [FromMM] to the margin, which is
    already in internal units, so the thickness at entry is not restored. *)
Theorem drawing_context_after_run :
  forall w : Wizard,
    dc_layer (final BuildThisFootprint w) = F_CrtYd
    /\ dc_lineThickness (final BuildThisFootprint w)
       = inject_Z (Package.margin (pPackage (parameters w)) * 1000000)
    /\ last (filter (fun c => match c with SetLineThickness _ => true | _ => false end)
                    (issued BuildThisFootprint w)) (SetLineThickness 0)
       = SetLineThickness (inject_Z (Package.margin (pPackage (parameters w)) * 1000000)).
Proof.
  intros w. split; [reflexivity |].
  rewrite <- FromMM_of_IU. split; reflexivity.
Qed.

(** A run adds seven graphics, one on F_Fab, five on F_SilkS and one on
    F_CrtYd, and none on the layer selected at entry; the courtyard box is
    drawn 0.05 mm thick, the six others with the thickness at entry. *)
Theorem graphics_layers_and_thickness :
  forall (w : Wizard) (layer : LAYER),
    map (fun g => (g_layer g, g_thickness g)) (footprint_graphics w)
    = [ (F_Fab, dc_lineThickness w);
        (F_SilkS, dc_lineThickness w); (F_SilkS, dc_lineThickness w);
        (F_SilkS, dc_lineThickness w); (F_SilkS, dc_lineThickness w);
        (F_SilkS, dc_lineThickness w);
        (F_CrtYd, inject_Z 50000) ]
    /\ footprint_graphics w
       = drawn layer (dc_lineThickness w) (issued BuildThisFootprint w).
Proof. intros w layer. split; reflexivity. Qed.

(** ** Pads and package *)

Lemma CheckParameters_errors (str_float : Q -> string) (w : Wizard) :
  exists info_w info_l : string,
    errors (final (CheckParameters str_float) w)
    = errors w
      ++ (if Package.width (pPackage (parameters w))
             <? Pads.pitch (pPads (parameters w)) * Pads.columns (pPads (parameters w))
          then [info_w] else [])
      ++ (if Package.length (pPackage (parameters w))
             <? Pads.pitch (pPads (parameters w)) * Pads.rows (pPads (parameters w))
          then [info_l] else []).
Proof.
  set (p := parameters w).
  set (width_min := ToMM (Pads.pitch (pPads p) * Pads.columns (pPads p))).
  set (length_min := ToMM (Pads.pitch (pPads p) * Pads.rows (pPads p))).
  assert (Bw : Qltb (ToMM (Package.width (pPackage p))) width_min
               = (Package.width (pPackage p) <? Pads.pitch (pPads p) * Pads.columns (pPads p))).
  { destruct (Z.ltb_spec (Package.width (pPackage p))
                         (Pads.pitch (pPads p) * Pads.columns (pPads p))) as [H | H].
    - apply Qltb_lt. apply (proj2 (ToMM_lt _ _) H).
    - apply Qltb_ge. apply Qnot_lt_le. intros C. pose proof (proj1 (ToMM_lt _ _) C). lia. }
  assert (Bl : Qltb (ToMM (Package.length (pPackage p))) length_min
               = (Package.length (pPackage p) <? Pads.pitch (pPads p) * Pads.rows (pPads p))).
  { destruct (Z.ltb_spec (Package.length (pPackage p))
                         (Pads.pitch (pPads p) * Pads.rows (pPads p))) as [H | H].
    - apply Qltb_lt. apply (proj2 (ToMM_lt _ _) H).
    - apply Qltb_ge. apply Qnot_lt_le. intros C. pose proof (proj1 (ToMM_lt _ _) C). lia. }
  do 2 eexists.
  unfold final, CheckParameters, bind, call, self_parameters.
  cbn [fst snd]. fold p. fold width_min. fold length_min.
  unfold host_step at 2. rewrite checked_value_width. fold p. fold width_min. rewrite Bw.
  destruct (Package.width (pPackage p) <? Pads.pitch (pPads p) * Pads.columns (pPads p));
    unfold host_step; rewrite checked_value_length;
    cbn [parameters errors]; fold p; fold length_min; rewrite Bl;
    destruct (Package.length (pPackage p) <? Pads.pitch (pPads p) * Pads.rows (pPads p));
    cbn [errors app]; rewrite <- ?app_assoc, ?app_nil_r; reflexivity.
Qed.

(** A package that the check accepts for a pitch, a number of columns and a
    number of rows that are not negative has a width and a length that are
    not negative. *)
Lemma checked_package_not_negative (str_float : Q -> string) (w : Wizard) :
  0 <= Pads.pitch (pPads (parameters w)) ->
  0 <= Pads.columns (pPads (parameters w)) ->
  0 <= Pads.rows (pPads (parameters w)) ->
  errors (final (CheckParameters str_float) w) = errors w ->
  0 <= Package.width (pPackage (parameters w))
  /\ 0 <= Package.length (pPackage (parameters w)).
Proof.
  intros Hp Hc Hr He.
  destruct (CheckParameters_errors str_float w) as (iw & il & E).
  rewrite He in E. rewrite <- (app_nil_r (errors w)) in E at 1.
  apply app_inv_head in E.
  destruct (Z.ltb_spec (Package.width (pPackage (parameters w)))
                       (Pads.pitch (pPads (parameters w))
                        * Pads.columns (pPads (parameters w)))) as [Hw | Hw];
    [discriminate E |].
  destruct (Z.ltb_spec (Package.length (pPackage (parameters w)))
                       (Pads.pitch (pPads (parameters w))
                        * Pads.rows (pPads (parameters w)))) as [Hl | Hl];
    [discriminate E |].
  split; nia.
Qed.

(** X9: when the pitch is not negative and [CheckParameters] reports
    nothing, every pad centre is at least half a pitch inside the package
    box, in x and in y. *)
Theorem checked_pads_inside_package :
  forall (str_float : Q -> string) (w : Wizard) (pad : PlacedPad),
    0 <= Pads.pitch (pPads (parameters w)) ->
    errors (final (CheckParameters str_float) w) = errors w ->
    In pad (footprint_pads w) ->
    (Qabs (fst (pp_pos pad)) + inject_Z (Pads.pitch (pPads (parameters w))) / 2
     <= inject_Z (Package.width (pPackage (parameters w))) / 2)%Q
    /\ (Qabs (snd (pp_pos pad)) + inject_Z (Pads.pitch (pPads (parameters w))) / 2
        <= inject_Z (Package.length (pPackage (parameters w))) / 2)%Q.
Proof.
  intros str_float w pad Hp Hc Hin.
  destruct (CheckParameters_errors str_float w) as (iw & il & E).
  rewrite Hc in E. rewrite <- (app_nil_r (errors w)) in E at 1.
  apply app_inv_head in E.
  rewrite footprint_pads_array in Hin. apply array_pads_In in Hin.
  destruct Hin as (x & y & Hx & Hy & ->).
  cbn [pga_nx pga_ny footprint_array] in Hx, Hy.
  set (p := Pads.pitch (pPads (parameters w))) in *.
  set (c := Pads.columns (pPads (parameters w))) in *.
  set (r := Pads.rows (pPads (parameters w))) in *.
  set (width := Package.width (pPackage (parameters w))) in *.
  set (length := Package.length (pPackage (parameters w))) in *.
  assert (Hw : p * c <= width).
  { destruct (Z.ltb_spec width (p * c)); [| assumption].
    destruct (length <? p * r); discriminate E. }
  assert (Hl : p * r <= length).
  { destruct (Z.ltb_spec length (p * r)); [| assumption].
    destruct (width <? p * c); discriminate E. }
  cbn [pp_pos pad_position fst snd pga_centre pga_px pga_py pga_nx pga_ny footprint_array].
  fold p. fold c. fold r.
  assert (X0 : 0 <= x * p) by nia.
  assert (X1 : x * p <= p * (c - 1)) by nia.
  assert (X2 : p * (c - 1) + p <= width) by nia.
  assert (Y0 : 0 <= p * y) by nia.
  assert (Y1 : p * y <= p * (r - 1)) by nia.
  assert (Y2 : p * (r - 1) + p <= length) by nia.
  rewrite Zle_Qle in X0, X1, X2, Y0, Y1, Y2.
  rewrite inject_Z_plus in X2, Y2.
  revert X0 X1 X2 Y0 Y1 Y2.
  generalize (inject_Z (x * p)) (inject_Z (p * (c - 1))) (inject_Z (p * y))
             (inject_Z (p * (r - 1))) (inject_Z p) (inject_Z width) (inject_Z length).
  intros X C Y R P W L X0 X1 X2 Y0 Y1 Y2.
  change (inject_Z 0) with 0%Q in *.
  assert (DC : (C / 2 == C * (1 # 2))%Q) by field.
  assert (DR : (R / 2 == R * (1 # 2))%Q) by field.
  assert (DP : (P / 2 == P * (1 # 2))%Q) by field.
  assert (DW : (W / 2 == W * (1 # 2))%Q) by field.
  assert (DL : (L / 2 == L * (1 # 2))%Q) by field.
  rewrite DC, DR, DP, DW, DL.
  split.
  - assert (A : (Qabs (0 - C * (1 # 2) + X) <= C * (1 # 2))%Q)
      by (apply Qabs_le_iff; split; lra).
    lra.
  - assert (A : (Qabs (0 - R * (1 # 2) + Y) <= R * (1 # 2))%Q)
      by (apply Qabs_le_iff; split; lra).
    lra.
Qed.

Lemma checked_pads_inside_package_witness :
  (Qabs (fst (pp_pos (mkPlacedPad "A1" ((-4000000 # 2)%Q, (-4000000 # 2)%Q)
                                  (SMTRoundPad 500000))))
   + inject_Z 1000000 / 2 <= inject_Z 6000000 / 2)%Q
  /\ (Qabs (snd (pp_pos (mkPlacedPad "A1" ((-4000000 # 2)%Q, (-4000000 # 2)%Q)
                                     (SMTRoundPad 500000))))
      + inject_Z 1000000 / 2 <= inject_Z 6000000 / 2)%Q.
Proof.
  apply (checked_pads_inside_package str_float_mm (fresh_wizard default_parameters)).
  - cbn. lia.
  - reflexivity.
  - rewrite footprint_pads_array. apply array_pads_In.
    exists 0, 0. repeat split; cbn; lia.
Defined.

(** X10: the pad grid is centred on the origin: the pads at (i, j) and at
    (columns - 1 - i, rows - 1 - j) have opposite centres, and pad A1 sits
    at the [pin1_pos] of lines 95-96. *)
Theorem grid_centred_on_origin :
  forall (w : Wizard) (i j : Z),
    let c := Pads.columns (pPads (parameters w)) in
    let r := Pads.rows (pPads (parameters w)) in
    let array := footprint_array (parameters w) in
    0 <= i < c -> 0 <= j < r ->
    exists a b first : PlacedPad,
      pad_at array i j = Some a
      /\ pad_at array (c - 1 - i) (r - 1 - j) = Some b
      /\ (fst (pp_pos b) == - fst (pp_pos a))%Q
      /\ (snd (pp_pos b) == - snd (pp_pos a))%Q
      /\ pad_at array 0 0 = Some first
      /\ pp_name first = "A1"%string
      /\ (fst (pp_pos first)
          == fst (pin1_pos c r (Pads.pitch (pPads (parameters w)))))%Q
      /\ (snd (pp_pos first)
          == snd (pin1_pos c r (Pads.pitch (pPads (parameters w)))))%Q.
Proof.
  intros w i j c r array Hi Hj.
  do 3 eexists.
  split; [apply pad_at_grid; cbn [pga_nx pga_ny array footprint_array]; lia |].
  split; [apply pad_at_grid; cbn [pga_nx pga_ny array footprint_array]; fold c; fold r; lia |].
  split; [| split].
  3: split; [apply pad_at_grid; cbn [pga_nx pga_ny array footprint_array]; fold c; fold r; lia |].
  3: split; [reflexivity |].
  all: cbn [pp_pos pad_position pin1_pos fst snd pga_centre pga_px pga_py pga_nx pga_ny
            array footprint_array]; fold c; fold r.
  all: try split.
  all: unfold Z.sub;
    repeat (rewrite inject_Z_plus || rewrite inject_Z_mult || rewrite inject_Z_opp);
    change (inject_Z 0) with 0%Q; change (inject_Z 1) with 1%Q; field.
Qed.

Lemma grid_centred_on_origin_witness :
  exists a b first : PlacedPad,
    pad_at (footprint_array default_parameters) 1 3 = Some a
    /\ pad_at (footprint_array default_parameters) (5 - 1 - 1) (5 - 1 - 3) = Some b
    /\ (fst (pp_pos b) == - fst (pp_pos a))%Q
    /\ (snd (pp_pos b) == - snd (pp_pos a))%Q
    /\ pad_at (footprint_array default_parameters) 0 0 = Some first
    /\ pp_name first = "A1"%string
    /\ (fst (pp_pos first) == fst (pin1_pos 5 5 1000000))%Q
    /\ (snd (pp_pos first) == snd (pin1_pos 5 5 1000000))%Q.
Proof.
  apply (grid_centred_on_origin (fresh_wizard default_parameters) 1 3); cbn; lia.
Defined.

(** X11: without override and with no negative count, the pin count in the
    footprint name is the number of pads a run adds. *)
Theorem name_counts_pads :
  forall (str_float : Q -> string) (w : Wizard),
    Pads.override (pPads (parameters w)) = false ->
    0 <= Pads.columns (pPads (parameters w)) ->
    0 <= Pads.rows (pPads (parameters w)) ->
    exists rest : string,
      result (GetValue str_float) w
      = ("BGA-" ++ str_int (Z.of_nat (List.length (footprint_pads w))) ++ "_" ++ rest)%string.
Proof.
  intros str_float w Ho Hc Hr.
  rewrite footprint_pads_array, array_pads_length.
  cbn [pga_nx pga_ny footprint_array].
  replace (Z.of_nat (Z.to_nat (Pads.columns (pPads (parameters w)))
                     * Z.to_nat (Pads.rows (pPads (parameters w)))))
    with (Pads.rows (pPads (parameters w)) * Pads.columns (pPads (parameters w))) by nia.
  eexists. unfold result, GetValue, bind, self_parameters, ret. cbn [fst snd].
  rewrite Ho. reflexivity.
Qed.

Lemma name_counts_pads_witness :
  exists rest : string,
    result (GetValue str_float_mm) (fresh_wizard default_parameters)
    = ("BGA-"
       ++ str_int (Z.of_nat (List.length (footprint_pads (fresh_wizard default_parameters))))
       ++ "_" ++ rest)%string.
Proof.
  apply name_counts_pads; cbn; try reflexivity; lia.
Defined.

(** X12: with no column or no row a run adds no pad and still draws its
    seven graphics. *)
Theorem empty_grid_adds_no_pad :
  forall w : Wizard,
    Pads.columns (pPads (parameters w)) <= 0 \/ Pads.rows (pPads (parameters w)) <= 0 ->
    footprint_pads w = []
    /\ module_pads (final BuildThisFootprint w) = module_pads w
    /\ List.length (footprint_graphics w) = 7%nat.
Proof.
  intros w H.
  assert (E : footprint_pads w = []).
  { rewrite footprint_pads_array. apply length_zero_iff_nil.
    rewrite array_pads_length. cbn [pga_nx pga_ny footprint_array]. nia. }
  split; [exact E |].
  split; [| reflexivity].
  rewrite BuildThisFootprint_pads, E. apply app_nil_r.
Qed.

Lemma empty_grid_adds_no_pad_witness :
  footprint_pads (fresh_wizard (mkParameters (Pads.mk 1000000 500000 0 5 false 25)
                                             (Package.mk 6000000 6000000 600000 250000)
                                             (SilkS.mk 1000000))) = []
  /\ module_pads (final BuildThisFootprint
                    (fresh_wizard (mkParameters (Pads.mk 1000000 500000 0 5 false 25)
                                                (Package.mk 6000000 6000000 600000 250000)
                                                (SilkS.mk 1000000))))
     = module_pads (fresh_wizard (mkParameters (Pads.mk 1000000 500000 0 5 false 25)
                                               (Package.mk 6000000 6000000 600000 250000)
                                               (SilkS.mk 1000000)))
  /\ List.length (footprint_graphics
                    (fresh_wizard (mkParameters (Pads.mk 1000000 500000 0 5 false 25)
                                                (Package.mk 6000000 6000000 600000 250000)
                                                (SilkS.mk 1000000)))) = 7%nat.
Proof.
  apply empty_grid_adds_no_pad. left. cbn. lia.
Defined.

(** X13: the half sides of the courtyard box are multiples of 0.05 mm, as
    the comment on line 161 says. *)
Theorem courtyard_on_half_tenth_grid :
  forall w : Wizard,
    exists (sizex sizey : Q) (kx ky : Z),
      on_layer F_CrtYd (footprint_graphics w) = [Box 0 0 sizex sizey]
      /\ (sizex / 2 == inject_Z (kx * 50000))%Q
      /\ (sizey / 2 == inject_Z (ky * 50000))%Q.
Proof.
  intros w.
  set (width := Package.width (pPackage (parameters w))).
  set (length := Package.length (pPackage (parameters w))).
  set (cmargin := Package.margin (pPackage (parameters w))).
  destruct (PutOnGridMM_tenth (width + 2 * cmargin) _ (courtyard_size width cmargin))
    as [[kx Hx] _].
  destruct (PutOnGridMM_tenth (length + 2 * cmargin) _ (courtyard_size length cmargin))
    as [[ky Hy] _].
  do 2 eexists. exists kx, ky.
  split; [apply courtyard_issued |].
  cbv zeta. fold width. fold length. fold cmargin.
  rewrite Hx, Hy, !inject_Z_mult.
  change (inject_Z 100000) with (100000 # 1)%Q. change (inject_Z 50000) with (50000 # 1)%Q.
  split; field.
Qed.

(** X14: the footprint name does not depend on the courtyard margin or on
    the bevel. *)
Theorem GetValue_ignores_margin_and_bevel :
  forall (str_float : Q -> string) (w1 w2 : Wizard),
    pPads (parameters w1) = pPads (parameters w2) ->
    Package.width (pPackage (parameters w1)) = Package.width (pPackage (parameters w2)) ->
    Package.length (pPackage (parameters w1)) = Package.length (pPackage (parameters w2)) ->
    Package.ball_size (pPackage (parameters w1))
    = Package.ball_size (pPackage (parameters w2)) ->
    result (GetValue str_float) w1 = result (GetValue str_float) w2.
Proof.
  intros str_float w1 w2 Hp Hw Hl Hb.
  unfold result, GetValue, bind, self_parameters, ret. cbn [fst snd].
  rewrite Hp, Hw, Hl, Hb. reflexivity.
Qed.

Lemma GetValue_ignores_margin_and_bevel_witness :
  result (GetValue str_float_mm) (fresh_wizard default_parameters)
  = result (GetValue str_float_mm)
           (fresh_wizard (mkParameters (Pads.mk 1000000 500000 5 5 false 25)
                                       (Package.mk 6000000 6000000 600000 900000)
                                       (SilkS.mk 300000))).
Proof.
  apply GetValue_ignores_margin_and_bevel; reflexivity.
Defined.

(** X15: the calls [BuildThisFootprint] issues do not depend on the ball
    size, on override or on pads_count. *)
Theorem BuildThisFootprint_ignores_ball_size_and_override :
  forall w1 w2 : Wizard,
    Pads.pitch (pPads (parameters w1)) = Pads.pitch (pPads (parameters w2)) ->
    Pads.pad_size (pPads (parameters w1)) = Pads.pad_size (pPads (parameters w2)) ->
    Pads.columns (pPads (parameters w1)) = Pads.columns (pPads (parameters w2)) ->
    Pads.rows (pPads (parameters w1)) = Pads.rows (pPads (parameters w2)) ->
    Package.width (pPackage (parameters w1)) = Package.width (pPackage (parameters w2)) ->
    Package.length (pPackage (parameters w1)) = Package.length (pPackage (parameters w2)) ->
    Package.margin (pPackage (parameters w1)) = Package.margin (pPackage (parameters w2)) ->
    SilkS.bevel (pSilkS (parameters w1)) = SilkS.bevel (pSilkS (parameters w2)) ->
    issued BuildThisFootprint w1 = issued BuildThisFootprint w2.
Proof.
  intros w1 w2 H1 H2 H3 H4 H5 H6 H7 H8.
  cbv [issued BuildThisFootprint bind call self_parameters fst snd app].
  rewrite H1, H2, H3, H4, H5, H6, H7, H8. reflexivity.
Qed.

Lemma BuildThisFootprint_ignores_ball_size_and_override_witness :
  issued BuildThisFootprint (fresh_wizard default_parameters)
  = issued BuildThisFootprint
           (fresh_wizard (mkParameters (Pads.mk 1000000 500000 5 5 true 20)
                                       (Package.mk 6000000 6000000 450000 250000)
                                       (SilkS.mk 1000000))).
Proof.
  apply BuildThisFootprint_ignores_ball_size_and_override; reflexivity.
Defined.
